(** * pkit: the buffered HTTP request shim [pRequest] (src/pkit.js)

    A shallow embedding of [pRequest] and of the event handlers it installs,
    over a small model of the JavaScript store: values, heap-allocated
    objects that are shared by reference, exceptions, the single-shot
    deferreds of [when], one for each call, and the log of what is handed
    to [http.request]. *)

From Stdlib Require Import String Ascii ZArith List Bool Lia.
From stdpp Require Import base list strings pretty.
Import ListNotations.
Local Open Scope string_scope.
Local Open Scope list_scope.

(** ** JavaScript values and the heap *)

(** A heap location. Objects are only ever reached through a location, so two
    values [VObject l] denote the very same mutable object. *)
Abbreviation loc := nat (only parsing).

(** Numbers are carried as integers: [pRequest] never computes with a number,
    it only asks for its [typeof] and passes [statusCode] through. *)
Inductive value : Type :=
  | VUndefined
  | VNull
  | VBool (b : bool)
  | VNumber (n : Z)
  | VString (s : string)
  | VObject (l : loc)
  | VFunction (l : loc).

(** An object is its own enumerable properties, in insertion order.  Arrays
    are objects whose properties are the decimal indices.  Inherited
    properties are not modelled: none of the keys the source reads ([url],
    [body], [headers], [statusCode], [content-type]) lives on a built-in
    prototype. *)
Record object : Type := mkObject {
  is_array : bool;
  props : list (string * value)
}.

Abbreviation heap := (list object) (only parsing).

(** [typeof v] *)
Definition typeof (v : value) : string :=
  match v with
  | VUndefined => "undefined"
  | VNull => "object"
  | VBool _ => "boolean"
  | VNumber _ => "number"
  | VString _ => "string"
  | VObject _ => "object"
  | VFunction _ => "function"
  end.

(** ToBoolean, as used by [||] *)
Definition truthy (v : value) : bool :=
  match v with
  | VUndefined | VNull => false
  | VBool b => b
  | VNumber n => negb (Z.eqb n 0)
  | VString s => negb (String.eqb s "")
  | VObject _ | VFunction _ => true
  end.

(** Strict equality [===] against a string literal. *)
Definition strict_eq_string (v : value) (s : string) : bool :=
  match v with
  | VString s' => String.eqb s' s
  | _ => false
  end.

(** ** Property lists *)

Fixpoint lookup_prop (k : string) (ps : list (string * value)) : option value :=
  match ps with
  | [] => None
  | (k', v) :: ps' => if String.eqb k k' then Some v else lookup_prop k ps'
  end.

(** Assignment keeps the position of an existing key and appends a new one. *)
Fixpoint store_prop (k : string) (v : value) (ps : list (string * value))
  : list (string * value) :=
  match ps with
  | [] => [(k, v)]
  | (k', v') :: ps' =>
      if String.eqb k k' then (k, v) :: ps' else (k', v') :: store_prop k v ps'
  end.

Fixpoint remove_prop (k : string) (ps : list (string * value))
  : list (string * value) :=
  match ps with
  | [] => []
  | (k', v') :: ps' =>
      if String.eqb k k' then remove_prop k ps' else (k', v') :: remove_prop k ps'
  end.

Definition obj_store (k : string) (v : value) (o : object) : object :=
  mkObject (is_array o) (store_prop k v (props o)).

Definition obj_remove (k : string) (o : object) : object :=
  mkObject (is_array o) (remove_prop k (props o)).

Definition plain (ps : list (string * value)) : object := mkObject false ps.

(** ** The world

    The heap, the deferreds made so far (a deferred is known by its index,
    as an object is by its location), and the requests made so far. *)

(** The state of a deferred of [when.defer()]: settled at most once. *)
Inductive promise : Type :=
  | Pending
  | Fulfilled (v : value)
  | Rejected (reason : value).

(** [deferred.resolve(v)] and [deferred.reject(e)]: no effect once settled.
    (The values [pRequest] resolves with are plain response records, never
    thenables.) *)
Definition resolve (v : value) (p : promise) : promise :=
  match p with Pending => Fulfilled v | _ => p end.

Definition reject (e : value) (p : promise) : promise :=
  match p with Pending => Rejected e | _ => p end.

(** One [http.request(options).end(payload)]. *)
Record request : Type := mkRequest {
  req_options : value;
  req_payload : value
}.

Record world : Type := mkWorld {
  heap_of : heap;
  deferreds : list promise;
  network : list request
}.

Definition with_heap (h : heap) (w : world) : world :=
  mkWorld h (deferreds w) (network w).

(** The world with one more deferred, in the state [p]. *)
Definition with_deferred (p : promise) (w : world) : world :=
  mkWorld (heap_of w) (deferreds w ++ [p]) (network w).

(** The world in which the deferred [d] went through [f]. *)
Definition settle (f : promise -> promise) (d : nat) (w : world) : world :=
  mkWorld (heap_of w) (alter f d (deferreds w)) (network w).

(** ** Computations that may throw *)

Inductive completion (A : Type) : Type :=
  | Normal (a : A)
  | Throw (e : value).
Arguments Normal {A} a.
Arguments Throw {A} e.

Definition M (A : Type) : Type := world -> world * completion A.

Definition ret {A} (a : A) : M A := fun w => (w, Normal a).

Definition bind {A B} (m : M A) (k : A -> M B) : M B :=
  fun w =>
    match m w with
    | (w', Normal a) => k a w'
    | (w', Throw e) => (w', Throw e)
    end.

Definition throw {A} (e : value) : M A := fun w => (w, Throw e).

(** [try { m } catch (e) { handler e }] *)
Definition try_catch {A} (m : M A) (handler : value -> M A) : M A :=
  fun w =>
    match m w with
    | (w', Normal a) => (w', Normal a)
    | (w', Throw e) => handler e w'
    end.

Notation "'let*' x ':=' c1 'in' c2" := (bind c1 (fun x => c2))
  (at level 10, x binder, c1 at level 100, c2 at level 200).

(** Allocation of a fresh object: the next free location. *)
Definition alloc (o : object) : M value :=
  fun w => (with_heap (heap_of w ++ [o]) w, Normal (VObject (length (heap_of w)))).

(** An error object raised by the engine or created with [new Error(msg)]. *)
Definition error_object (name msg : string) : object :=
  plain [("name", VString name); ("message", VString msg)].

Definition throw_error {A} (name msg : string) : M A :=
  let* e := alloc (error_object name msg) in throw e.

(** The own property [k] of the object that [o] refers to; [undefined] when
    there is none, and for the primitives. *)
Definition field (h : heap) (o : value) (k : string) : value :=
  match o with
  | VObject l | VFunction l =>
      match h !! l with
      | Some ob => default VUndefined (lookup_prop k (props ob))
      | None => VUndefined
      end
  | _ => VUndefined
  end.

(** [k in o], for own properties. *)
Definition has_field (h : heap) (o : value) (k : string) : bool :=
  match o with
  | VObject l | VFunction l =>
      match h !! l with
      | Some ob => match lookup_prop k (props ob) with Some _ => true | None => false end
      | None => false
      end
  | _ => false
  end.

(** A reference to an object that exists. *)
Definition live (h : heap) (v : value) : Prop :=
  match v with
  | VObject l | VFunction l => l < length h
  | _ => False
  end.

(** [o[k]] *)
Definition get_prop (o : value) (k : string) : M value :=
  match o with
  | VUndefined | VNull => throw_error "TypeError" "Cannot read property of undefined or null"
  | _ => fun w => (w, Normal (field (heap_of w) o k))
  end.

(** [o[k] = v].  In sloppy mode an assignment to a property of a primitive is
    silently dropped; in strict mode it throws. *)
Definition set_prop (strict : bool) (o : value) (k : string) (v : value) : M unit :=
  match o with
  | VUndefined | VNull => throw_error "TypeError" "Cannot set property of undefined or null"
  | VBool _ | VNumber _ | VString _ =>
      if strict then throw_error "TypeError" "Cannot create property on a primitive"
      else ret tt
  | VObject l | VFunction l =>
      fun w => (with_heap (alter (obj_store k v) l (heap_of w)) w, Normal tt)
  end.

(** The heap after the sloppy-mode assignment [o[k] = v], for an [o] that
    is not [undefined] or [null]: nothing changes when [o] is a primitive. *)
Definition store_on (o : value) (k : string) (v : value) (h : heap) : heap :=
  match o with
  | VObject l | VFunction l => alter (obj_store k v) l h
  | _ => h
  end.

(** [delete o[k]] *)
Definition delete_prop (o : value) (k : string) : M unit :=
  match o with
  | VUndefined | VNull => throw_error "TypeError" "Cannot convert undefined or null to object"
  | VBool _ | VNumber _ | VString _ => ret tt
  | VObject l | VFunction l =>
      fun w => (with_heap (alter (obj_remove k) l (heap_of w)) w, Normal tt)
  end.

(** [Object.keys(o)] for an object reference. *)
Definition own_keys (o : value) : M (list string) :=
  match o with
  | VObject l | VFunction l =>
      fun w => (w, Normal (match heap_of w !! l with
                           | Some ob => map fst (props ob)
                           | None => []
                           end))
  | VUndefined | VNull => throw_error "TypeError" "Object.keys called on non-object"
  | _ => ret []
  end.

(** ** JSON values and their allocation *)

(** The value denoted by a JSON text. *)
Unset Elimination Schemes.
Inductive json : Type :=
  | JNull
  | JBool (b : bool)
  | JNumber (n : Z)
  | JString (s : string)
  | JArray (items : list json)
  | JObject (members : list (string * json)).
Set Elimination Schemes.

(** The properties of an array with the given elements, from index [i]. *)
Fixpoint index_props (i : nat) (vs : list value) : list (string * value) :=
  match vs with
  | [] => []
  | v :: vs' => (pretty i, v) :: index_props (S i) vs'
  end.

(** A later member with the same name overrides an earlier one. *)
Definition member_props (kvs : list (string * value)) : list (string * value) :=
  fold_left (fun ps kv => store_prop (fst kv) (snd kv) ps) kvs [].

(** Every array and object of the tree becomes a fresh heap object. *)
Fixpoint alloc_json (j : json) : M value :=
  match j with
  | JNull => ret VNull
  | JBool b => ret (VBool b)
  | JNumber n => ret (VNumber n)
  | JString s => ret (VString s)
  | JArray items =>
      let* vs :=
        (fix elems (js : list json) : M (list value) :=
           match js with
           | [] => ret []
           | j' :: js' =>
               let* v := alloc_json j' in
               let* vs := elems js' in
               ret (v :: vs)
           end) items in
      alloc (mkObject true (index_props 0 vs))
  | JObject members =>
      let* kvs :=
        (fix fields (ms : list (string * json)) : M (list (string * value)) :=
           match ms with
           | [] => ret []
           | (k, j') :: ms' =>
               let* v := alloc_json j' in
               let* kvs := fields ms' in
               ret ((k, v) :: kvs)
           end) members in
      alloc (plain (member_props kvs))
  end.

(** ** The result of [url.parse] *)

(** The twelve fields of Node's [Url] object; a field that the URL does not
    have is [null]. *)
Record Url : Type := mkUrl {
  protocol : option string;
  slashes : option bool;
  auth : option string;
  host : option string;
  port : option string;
  hostname : option string;
  hash : option string;
  search : option string;
  query : option string;
  pathname : option string;
  path : option string;
  href : string
}.

Definition nullable (o : option string) : value :=
  match o with Some s => VString s | None => VNull end.

Definition url_object (u : Url) : object :=
  plain [ ("protocol", nullable (protocol u));
          ("slashes", match slashes u with Some b => VBool b | None => VNull end);
          ("auth", nullable (auth u));
          ("host", nullable (host u));
          ("port", nullable (port u));
          ("hostname", nullable (hostname u));
          ("hash", nullable (hash u));
          ("search", nullable (search u));
          ("query", nullable (query u));
          ("pathname", nullable (pathname u));
          ("path", nullable (path u));
          ("href", VString (href u)) ].

(** ** The promise handed back to the caller *)

Inductive handle : Type :=
  | DeferredPromise (d : nat)         (** [deferred.promise] of the deferred [d] *)
  | RejectedPromise (reason : value). (** [when.reject(reason)] *)

Definition handle_state (hd : handle) (w : world) : option promise :=
  match hd with
  | DeferredPromise d => deferreds w !! d
  | RejectedPromise reason => Some (Rejected reason)
  end.

(** [when.defer()]: a new deferred, pending. *)
Definition when_defer : M nat :=
  fun w => (with_deferred Pending w, Normal (length (deferreds w))).

(** [deferred.resolve(v)] and [deferred.reject(e)] on the deferred [d]. *)
Definition deferred_resolve (d : nat) (v : value) : M unit :=
  fun w => (settle (resolve v) d w, Normal tt).

Definition deferred_reject (d : nat) (e : value) : M unit :=
  fun w => (settle (reject e) d w, Normal tt).

(** [.end(payload)] on the request that [http.request(options)] returned:
    the request leaves with that payload. *)
Definition request_end (options payload : value) : M unit :=
  fun w => (mkWorld (heap_of w) (deferreds w) (network w ++ [mkRequest options payload]),
            Normal tt).

(** [v.slice(0, 16)]: a string method on strings, an array method on arrays,
    and a TypeError on everything else. *)
Definition slice_0_16 (v : value) : M value :=
  match v with
  | VString s => ret (VString (substring 0 16 s))
  | VObject l =>
      fun w =>
        match heap_of w !! l with
        | Some ob =>
            if is_array ob then alloc (mkObject true (firstn 16 (props ob))) w
            else throw_error "TypeError" "Object has no method 'slice'" w
        | None => throw_error "TypeError" "Object has no method 'slice'" w
        end
  | VUndefined | VNull =>
      throw_error "TypeError" "Cannot call method 'slice' of undefined"
  | VBool _ | VNumber _ | VFunction _ =>
      throw_error "TypeError" "Object has no method 'slice'"
  end.

(** ** pRequest *)

(** The host functions that [pRequest] calls. *)
Record runtime : Type := mkRuntime {
  (** Whether Node's [util] module runs in strict mode (it does since 0.12). *)
  strict_lib : bool;
  (** The grammar of [url.parse]. *)
  url_parse_fields : string -> Url;
  (** The grammar of [JSON.parse]: the value of a text, or the message of the
      SyntaxError. *)
  JSON_parse_text : string -> json + string;
  (** [JSON.stringify] on a value of the heap; [None] when it throws (a
      circular structure).  Objects hold data only: [toJSON] methods are not
      modelled. *)
  JSON_stringify_text : list object -> value -> option string;
  (** Whether [http.request(options)] throws, and then the name and the
      message of its error; [None] when the transport takes the request.
      (Node refuses, for one, a target whose protocol is not [http:].) *)
  http_request_refusal : list object -> value -> option (string * string)
}.

Section PKit.

Variable node : runtime.

(** [url.parse(u)] *)
Definition url_parse (u : value) : M value :=
  match u with
  | VString s => alloc (url_object (url_parse_fields node s))
  | _ => throw_error "TypeError" "Parameter 'url' must be a string"
  end.

(** [JSON.parse(text)] *)
Definition JSON_parse (text : string) : M value :=
  match JSON_parse_text node text with
  | inl j => alloc_json j
  | inr msg => throw_error "SyntaxError" msg
  end.

(** [JSON.stringify(v)] *)
Definition JSON_stringify (v : value) : M value :=
  fun w =>
    match JSON_stringify_text node (heap_of w) v with
    | Some s => (w, Normal (VString s))
    | None => throw_error "TypeError" "Converting circular structure to JSON" w
    end.

(** The loop of [util._extend]: [while (i--) origin[keys[i]] = add[keys[i]]],
    given the keys already in the order the loop visits them. *)
Fixpoint extend_loop (origin add : value) (keys : list string) : M unit :=
  match keys with
  | [] => ret tt
  | k :: keys' =>
      let* v := get_prop add k in
      let* _ := set_prop (strict_lib node) origin k v in
      extend_loop origin add keys'
  end.

(** [util._extend(origin, add)] *)
Definition util_extend (origin add : value) : M value :=
  if negb (truthy add) || negb (String.eqb (typeof add) "object") then ret origin
  else
    let* keys := own_keys add in
    let* _ := extend_loop origin add (rev keys) in
    ret origin.

(** Lines 52-59: the target of the request; [None] stands for the early
    [return when.reject('Missing URL')]. *)
Definition resolve_target (options : value) : M (option value) :=
  if String.eqb (typeof options) "object" then
    let* u := get_prop options "url" in
    let* requestOptions :=
      (if String.eqb (typeof u) "string" then url_parse u else ret u) in
    let* _ := util_extend requestOptions options in
    ret (Some requestOptions)
  else if String.eqb (typeof options) "string" then
    let* requestOptions := url_parse options in
    ret (Some requestOptions)
  else ret None.

(** Lines 61-68: the body. pkit.js itself is sloppy-mode code. *)
Definition prepare_body (requestOptions : value) : M unit :=
  let* body := get_prop requestOptions "body" in
  if String.eqb (typeof body) "object" then
    let* text := JSON_stringify body in
    let* _ := set_prop false requestOptions "body" text in
    let* hs := get_prop requestOptions "headers" in
    let* hs' := (if truthy hs then ret hs else alloc (plain [])) in
    let* _ := set_prop false requestOptions "headers" hs' in
    let* hs1 := get_prop requestOptions "headers" in
    let* _ := set_prop false hs1 "Content-Type" (VString "application/json") in
    let* hs2 := get_prop requestOptions "headers" in
    set_prop false hs2 "Accept" (VString "application/json")
  else if negb (String.eqb (typeof body) "string") then
    delete_prop requestOptions "body"
  else ret tt.

(** [http.request(options)]: it throws when Node refuses the options, and
    no request is made then. *)
Definition http_request (options : value) : M unit :=
  fun w =>
    match http_request_refusal node (heap_of w) options with
    | Some (name, msg) => throw_error name msg w
    | None => (w, Normal tt)
    end.

(** Lines 70 and 103: [http.request(requestOptions)] and
    [.end(requestOptions.body)].  The handlers installed in between are
    [on_error], [on_close], [on_data] and [on_end] below; the ['response']
    handler is the [EvResponse] case of [step]. *)
Definition send (requestOptions : value) : M unit :=
  let* _ := http_request requestOptions in
  let* payload := get_prop requestOptions "body" in
  request_end requestOptions payload.

Definition pRequest (options : value) : M handle :=
  let* deferred := when_defer in
  let* target := resolve_target options in
  match target with
  | None => ret (RejectedPromise (VString "Missing URL"))
  | Some requestOptions =>
      let* _ := prepare_body requestOptions in
      let* _ := send requestOptions in
      ret (DeferredPromise deferred)
  end.

(** *** The handlers

    They are closures of one call: [deferred] is the deferred of line 49 of
    that call. *)

(** [.on('error', function (err) { deferred.reject(err) })] *)
Definition on_error (deferred : nat) (err : value) : M unit :=
  deferred_reject deferred err.

(** [.on('close', ...)] on the response *)
Definition on_close (deferred : nat) : M unit :=
  let* e := alloc (error_object "Error" "Connection closed.") in
  deferred_reject deferred e.

(** [.on('data', function (chunk) { buf += chunk })] *)
Definition on_data (buf chunk : string) : string := buf +:+ chunk.

(** [.on('end', ...)] on the response object [response], with the text
    accumulated in [buf]. *)
Definition on_end (deferred : nat) (response : value) (buf : string) : M unit :=
  let* _ := set_prop false response "body" (VString buf) in
  let* headers := get_prop response "headers" in
  let* ct := get_prop headers "content-type" in
  let* prefix := slice_0_16 ct in
  let* _ :=
    (if strict_eq_string prefix "application/json" then
       try_catch
         (let* parsed := JSON_parse buf in
          set_prop false response "body" parsed)
         (fun e =>
            let* _ := set_prop false e "response" response in
            deferred_reject deferred e)
     else ret tt) in
  let* statusCode := get_prop response "statusCode" in
  let* headers' := get_prop response "headers" in
  let* body := get_prop response "body" in
  let* result := alloc (plain [("statusCode", statusCode);
                               ("headers", headers');
                               ("body", body)]) in
  deferred_resolve deferred result.

End PKit.

(** ** The events of one exchange *)

(** What Node's [http] emits for one request: ['error'] on the request,
    ['response'] with a new IncomingMessage, then ['data'], ['end'] and
    ['close'] on that message. *)
Inductive event : Type :=
  | EvError (err : value)
  | EvResponse (statusCode : Z) (headers : list (string * value))
  | EvData (chunk : string)
  | EvEnd
  | EvClose.

(** The request in flight: the world, the response whose handlers are
    installed together with its [buf], and the exceptions that left a
    handler uncaught. *)
Record exchange : Type := mkExchange {
  ex_world : world;
  ex_response : option (value * string);
  ex_uncaught : list value
}.

(** The IncomingMessage that Node builds for a response. *)
Definition incoming_message (statusCode : Z) (headers : list (string * value)) : M value :=
  let* hs := alloc (plain headers) in
  alloc (plain [("statusCode", VNumber statusCode); ("headers", hs)]).

(** Running a handler: an exception that escapes it is nobody's to catch. *)
Definition deliver (handler : M unit) (x : exchange) : exchange :=
  match handler (ex_world x) with
  | (w, Normal _) => mkExchange w (ex_response x) (ex_uncaught x)
  | (w, Throw e) => mkExchange w (ex_response x) (ex_uncaught x ++ [e])
  end.

Section Events.

Variable node : runtime.

(** The deferred of the call whose request this is. *)
Variable deferred : nat.

(** ['response'] is emitted at most once for a request; its handler starts
    with [var buf = '']. Events of a response that never came have no
    handler. *)
Definition step (x : exchange) (ev : event) : exchange :=
  match ev with
  | EvError err => deliver (on_error deferred err) x
  | EvResponse statusCode headers =>
      match incoming_message statusCode headers (ex_world x) with
      | (w, Normal response) => mkExchange w (Some (response, "")) (ex_uncaught x)
      | (w, Throw e) => mkExchange w (ex_response x) (ex_uncaught x ++ [e])
      end
  | EvData chunk =>
      match ex_response x with
      | Some (response, buf) =>
          mkExchange (ex_world x) (Some (response, on_data buf chunk)) (ex_uncaught x)
      | None => x
      end
  | EvEnd =>
      match ex_response x with
      | Some (response, buf) => deliver (on_end node deferred response buf) x
      | None => x
      end
  | EvClose =>
      match ex_response x with
      | Some _ => deliver (on_close deferred) x
      | None => x
      end
  end.

Definition run (x : exchange) (evs : list event) : exchange :=
  fold_left step evs x.

End Events.

(** The exchange right after [pRequest] returned [deferred.promise]. *)
Definition started (w : world) : exchange := mkExchange w None [].

(** The caller's store before the first call. *)
Definition caller (h : heap) : world := mkWorld h [] [].

(** The store of the first call after its line 49: the deferred [0] is
    there, pending. *)
Definition called (h : heap) : world := with_deferred Pending (caller h).

(** ** Reference instances of the host functions

    [pRequest] is verified for every [url.parse], [JSON.parse],
    [JSON.stringify] and [http.request].  The instances below cover the
    fragment used by the examples: URLs of the shape
    [scheme://host:port/path?query#hash], JSON texts whose numbers are
    integers and whose strings escape only the quote, the backslash and the
    slash, and, of what [http.request] checks before it returns, the
    protocol, the method and the headers. *)

Module Reference.

Definition dquote : ascii := "034"%char.
Definition backslash : ascii := "092"%char.

(** [cut c s]: [s] up to the first [c], and what follows from that [c] on. *)
Fixpoint cut (c : ascii) (s : string) : string * option string :=
  match s with
  | EmptyString => (EmptyString, None)
  | String a r =>
      if Ascii.eqb a c then (EmptyString, Some s)
      else let '(before, rest) := cut c r in (String a before, rest)
  end.

Definition tail (s : string) : string :=
  match s with EmptyString => EmptyString | String _ r => r end.

Definition nonempty (s : string) : option string :=
  match s with EmptyString => None | _ => Some s end.

Definition url_parse_fields (u : string) : Url :=
  let '(no_hash, hash) := cut "#" u in
  let '(no_search, search) := cut "?" no_hash in
  let '(scheme, after) :=
    match cut ":" no_search with
    | (sch, Some r) =>
        if String.prefix "://" r then (Some (sch +:+ ":"), substring 3 (String.length r) r)
        else (None, no_search)
    | (_, None) => (None, no_search)
    end in
  let '(authority, pathname) :=
    match scheme with
    | Some _ =>
        let '(a, p) := cut "/" after in (nonempty a, Some (default "/" p))
    | None => (None, nonempty after)
    end in
  let '(hostname, port) :=
    match authority with
    | Some a => let '(hn, p) := cut ":" a in (Some hn, option_map tail p)
    | None => (None, None)
    end in
  let path :=
    match pathname, search with
    | None, None => None
    | _, _ => Some (default "" pathname +:+ default "" search)
    end in
  mkUrl scheme
        (match scheme with Some _ => Some true | None => None end)
        None authority port hostname hash search (option_map tail search)
        pathname path
        (match scheme, pathname with
         | Some sch, Some p =>
             sch +:+ "//" +:+ default "" authority +:+ p
                 +:+ default "" search +:+ default "" hash
         | _, _ => u
         end).

(** *** A JSON reader *)

Definition is_ws (c : ascii) : bool :=
  let n := nat_of_ascii c in
  Nat.eqb n 32 || Nat.eqb n 9 || Nat.eqb n 10 || Nat.eqb n 13.

Definition is_digit (c : ascii) : bool :=
  let n := nat_of_ascii c in Nat.leb 48 n && Nat.leb n 57.

Fixpoint skip_ws (s : string) : string :=
  match s with
  | String c r => if is_ws c then skip_ws r else s
  | EmptyString => s
  end.

Fixpoint read_digits (acc : Z) (s : string) : Z * string :=
  match s with
  | String c r =>
      if is_digit c then read_digits (10 * acc + (Z.of_nat (nat_of_ascii c) - 48)) r
      else (acc, s)
  | EmptyString => (acc, s)
  end.

(** The characters after an opening quote, up to the closing one. *)
Fixpoint read_string (s : string) : option (string * string) :=
  match s with
  | EmptyString => None
  | String c r =>
      if Ascii.eqb c dquote then Some (EmptyString, r)
      else if Ascii.eqb c backslash then
        match r with
        | String e r' =>
            if Ascii.eqb e dquote || Ascii.eqb e backslash || Ascii.eqb e "/" then
              match read_string r' with
              | Some (t, rest) => Some (String e t, rest)
              | None => None
              end
            else None
        | EmptyString => None
        end
      else
        match read_string r with
        | Some (t, rest) => Some (String c t, rest)
        | None => None
        end
  end.

Definition strip (p s : string) : option string :=
  if String.prefix p s
  then Some (substring (String.length p) (String.length s) s)
  else None.

Fixpoint read_value (fuel : nat) (s : string) : option (json * string) :=
  match fuel with
  | O => None
  | S fuel' =>
      match skip_ws s with
      | EmptyString => None
      | String c r as t =>
          if Ascii.eqb c "{" then
            match skip_ws r with
            | String "}" r' => Some (JObject [], r')
            | _ =>
                match read_members fuel' r with
                | Some (ms, r') => Some (JObject ms, r')
                | None => None
                end
            end
          else if Ascii.eqb c "[" then
            match skip_ws r with
            | String "]" r' => Some (JArray [], r')
            | _ =>
                match read_items fuel' r with
                | Some (js, r') => Some (JArray js, r')
                | None => None
                end
            end
          else if Ascii.eqb c dquote then
            match read_string r with
            | Some (str, r') => Some (JString str, r')
            | None => None
            end
          else if Ascii.eqb c "-" then
            match r with
            | String d _ =>
                if is_digit d
                then let '(n, r') := read_digits 0 r in Some (JNumber (- n), r')
                else None
            | EmptyString => None
            end
          else if is_digit c then
            let '(n, r') := read_digits 0 t in Some (JNumber n, r')
          else
            match strip "true" t, strip "false" t, strip "null" t with
            | Some r', _, _ => Some (JBool true, r')
            | _, Some r', _ => Some (JBool false, r')
            | _, _, Some r' => Some (JNull, r')
            | _, _, _ => None
            end
      end
  end
with read_items (fuel : nat) (s : string) : option (list json * string) :=
  match fuel with
  | O => None
  | S fuel' =>
      match read_value fuel' s with
      | Some (j, r) =>
          match skip_ws r with
          | String "," r' =>
              match read_items fuel' r' with
              | Some (js, r'') => Some (j :: js, r'')
              | None => None
              end
          | String "]" r' => Some ([j], r')
          | _ => None
          end
      | None => None
      end
  end
with read_members (fuel : nat) (s : string) : option (list (string * json) * string) :=
  match fuel with
  | O => None
  | S fuel' =>
      match skip_ws s with
      | String c r =>
          if Ascii.eqb c dquote then
            match read_string r with
            | Some (k, r1) =>
                match skip_ws r1 with
                | String ":" r2 =>
                    match read_value fuel' r2 with
                    | Some (j, r3) =>
                        match skip_ws r3 with
                        | String "," r4 =>
                            match read_members fuel' r4 with
                            | Some (ms, r5) => Some ((k, j) :: ms, r5)
                            | None => None
                            end
                        | String "}" r4 => Some ([(k, j)], r4)
                        | _ => None
                        end
                    | None => None
                    end
                | _ => None
                end
            | None => None
            end
          else None
      | EmptyString => None
      end
  end.

Definition JSON_parse_text (text : string) : json + string :=
  match read_value (S (String.length text)) text with
  | Some (j, rest) =>
      match skip_ws rest with
      | EmptyString => inl j
      | _ => inr "Unexpected token"
      end
  | None => inr "Unexpected token"
  end.

(** *** A JSON writer *)

Fixpoint escape (s : string) : string :=
  match s with
  | EmptyString => EmptyString
  | String c r =>
      if Ascii.eqb c dquote || Ascii.eqb c backslash
      then String backslash (String c (escape r))
      else String c (escape r)
  end.

Definition quote (s : string) : string :=
  String dquote (escape s +:+ String dquote EmptyString).

(** [None]: the structure is deeper than [fuel]; [Some None]: the value has
    no JSON text ([undefined], a function). *)
Fixpoint write_value (fuel : nat) (h : heap) (v : value) : option (option string) :=
  match fuel with
  | O => None
  | S fuel' =>
      match v with
      | VUndefined | VFunction _ => Some None
      | VNull => Some (Some "null")
      | VBool true => Some (Some "true")
      | VBool false => Some (Some "false")
      | VNumber n => Some (Some (pretty n))
      | VString s => Some (Some (quote s))
      | VObject l =>
          match h !! l with
          | None => Some None
          | Some ob =>
              if is_array ob then
                match
                  (fix items (ps : list (string * value)) : option (list string) :=
                     match ps with
                     | [] => Some []
                     | (_, v') :: ps' =>
                         match write_value fuel' h v', items ps' with
                         | Some t, Some ts => Some (default "null" t :: ts)
                         | _, _ => None
                         end
                     end) (props ob)
                with
                | Some ts => Some (Some ("[" +:+ String.concat "," ts +:+ "]"))
                | None => None
                end
              else
                match
                  (fix members (ps : list (string * value)) : option (list string) :=
                     match ps with
                     | [] => Some []
                     | (k, v') :: ps' =>
                         match write_value fuel' h v', members ps' with
                         | Some (Some t), Some ts => Some ((quote k +:+ ":" +:+ t) :: ts)
                         | Some None, Some ts => Some ts
                         | _, _ => None
                         end
                     end) (props ob)
                with
                | Some ts => Some (Some ("{" +:+ String.concat "," ts +:+ "}"))
                | None => None
                end
          end
      end
  end.

(** A structure without cycles is no deeper than the heap is large, so
    running out of fuel is exactly the circular case. *)
Definition JSON_stringify_text (h : heap) (v : value) : option string :=
  match write_value (S (length h)) h v with
  | Some (Some s) => Some s
  | _ => None
  end.

(** *** What [http.request] refuses

    The options are read as objects with own properties; a port, a path, a
    method token or a header name that Node would refuse is outside the
    fragment. *)

Definition is_primitive (v : value) : bool :=
  match v with
  | VBool _ | VNumber _ | VString _ => true
  | _ => false
  end.

(** The text of a value inside an error message ([String(v)]); that of a
    function is its source, which the model does not have. *)
Definition display (v : value) : string :=
  match v with
  | VUndefined => "undefined"
  | VNull => "null"
  | VBool true => "true"
  | VBool false => "false"
  | VNumber n => pretty n
  | VString s => s
  | VObject _ => "[object Object]"
  | VFunction _ => "function () {}"
  end.

(** Node 0.10: [options.protocol && options.protocol !== 'http:'] throws an
    Error; [(options.method || 'GET').toUpperCase()] needs a string; and
    [Object.keys(options.headers)] needs an object. *)
Definition http_request_refusal (h : list object) (options : value)
  : option (string * string) :=
  let protocol := field h options "protocol" in
  let method := field h options "method" in
  let headers := field h options "headers" in
  if truthy protocol && negb (strict_eq_string protocol "http:") then
    Some ("Error", "Protocol:" +:+ display protocol +:+ " not supported.")
  else if truthy method && negb (String.eqb (typeof method) "string") then
    Some ("TypeError", "Object has no method 'toUpperCase'")
  else if truthy headers && is_primitive headers then
    Some ("TypeError", "Object.keys called on non-object")
  else None.

(** A current Node: the protocol and the type of the method are checked
    with TypeErrors, and primitive headers are let through ([Object.keys]
    takes them). *)
Definition http_request_refusal_now (h : list object) (options : value)
  : option (string * string) :=
  let protocol := field h options "protocol" in
  let method := field h options "method" in
  if truthy protocol && negb (strict_eq_string protocol "http:") then
    Some ("TypeError",
          "Protocol " +:+ quote (display protocol) +:+ " not supported. Expected "
          +:+ quote "http:")
  else
    match method with
    | VUndefined | VNull | VString _ => None
    | _ => Some ("TypeError", "The options.method property must be of type string.")
    end.

(** Node 0.10, as when pkit was written: [util] is sloppy-mode code. *)
Definition node : runtime :=
  mkRuntime false url_parse_fields JSON_parse_text JSON_stringify_text
            http_request_refusal.

(** A current Node: [util] is strict-mode code, as it is since Node 0.12. *)
Definition strict_node : runtime :=
  mkRuntime true url_parse_fields JSON_parse_text JSON_stringify_text
            http_request_refusal_now.

End Reference.

(** ** Observations used in the statements *)

(** The text that the ['data'] handler has accumulated after [chunks]. *)
Definition accumulate (chunks : list string) : string :=
  fold_left on_data chunks "".


Definition request_header (h : heap) (rq : request) (name : string) : value :=
  field h (field h (req_options rq) "headers") name.

(** [Object.keys] of the object at [o]. *)
Definition keys_of (h : list object) (o : loc) : list string :=
  match h !! o with
  | Some ob => map fst (props ob)
  | None => []
  end.

(** The property [k] after [util._extend(target, options)], for [options]
    at [o] and [target] at [t]: that of [options] when it has the key, the
    target's own otherwise. *)
Definition extended (h : list object) (o t : loc) (k : string) : value :=
  if in_dec string_dec k (keys_of h o) then field h (VObject o) k
  else field h (VObject t) k.

(** [http.request] takes the target as [prepare_body] leaves it. *)
Definition accepted (node : runtime) (requestOptions : value) (w : world) : Prop :=
  http_request_refusal node (heap_of (fst (prepare_body node requestOptions w)))
                       requestOptions
  = None.

(** [denotes n h j v]: in the heap [h], the value [v] is the JSON value [j],
    built from objects at locations [n] and above. *)
Fixpoint denotes (n : nat) (h : heap) (j : json) (v : value) {struct j} : Prop :=
  match j with
  | JNull => v = VNull
  | JBool b => v = VBool b
  | JNumber z => v = VNumber z
  | JString s => v = VString s
  | JArray items =>
      exists l vs,
        v = VObject l /\ n <= l /\
        h !! l = Some (mkObject true (index_props 0 vs)) /\
        (fix all (js : list json) (xs : list value) : Prop :=
           match js, xs with
           | [], [] => True
           | j' :: js', x :: xs' => denotes n h j' x /\ all js' xs'
           | _, _ => False
           end) items vs
  | JObject members =>
      exists l kvs,
        v = VObject l /\ n <= l /\
        h !! l = Some (plain (member_props kvs)) /\
        (fix all (ms : list (string * json)) (xs : list (string * value)) : Prop :=
           match ms, xs with
           | [], [] => True
           | (k, j') :: ms', (k', x) :: xs' => k = k' /\ denotes n h j' x /\ all ms' xs'
           | _, _ => False
           end) members kvs
  end.

(** Structural induction on JSON values, through the lists. *)
Section json_induction.

Variable P : json -> Prop.
Hypothesis P_null : P JNull.
Hypothesis P_bool : forall b, P (JBool b).
Hypothesis P_number : forall n, P (JNumber n).
Hypothesis P_string : forall s, P (JString s).
Hypothesis P_array : forall items, Forall P items -> P (JArray items).
Hypothesis P_object :
  forall members, Forall (fun m => P (snd m)) members -> P (JObject members).

Fixpoint json_ind (j : json) : P j :=
  match j with
  | JNull => P_null
  | JBool b => P_bool b
  | JNumber n => P_number n
  | JString s => P_string s
  | JArray items =>
      P_array items
        ((fix go (js : list json) : Forall P js :=
            match js with
            | [] => @List.Forall_nil _ P
            | j' :: js' => @List.Forall_cons _ P j' js' (json_ind j') (go js')
            end) items)
  | JObject members =>
      P_object members
        ((fix go (ms : list (string * json)) : Forall (fun m => P (snd m)) ms :=
            match ms with
            | [] => @List.Forall_nil _ _
            | m :: ms' =>
                @List.Forall_cons _ (fun m => P (snd m)) m ms' (json_ind (snd m)) (go ms')
            end) members)
  end.

End json_induction.

(** ** Frames *)

(** [heap_only m]: [m] leaves the deferreds and the transport alone. *)
Definition heap_only {A} (m : M A) : Prop :=
  forall w, deferreds (fst (m w)) = deferreds w /\ network (fst (m w)) = network w.

(** [keeps_settled m]: [m] does not change a promise that is settled. *)
Definition keeps_settled {A} (m : M A) : Prop :=
  forall w d p, deferreds w !! d = Some p -> p <> Pending ->
                deferreds (fst (m w)) !! d = Some p.

(** [settles_only d m]: of the deferreds, [m] touches at most [d], and it
    makes no new one. *)
Definition settles_only {A} (d : nat) (m : M A) : Prop :=
  forall w, exists f, deferreds (fst (m w)) = alter f d (deferreds w).

(** ** Sample inputs *)

Module Sample.

Definition q : string := String Reference.dquote EmptyString.

(** [Content-Type: application/json; charset=utf-8] *)
Definition json_headers : list (string * value) :=
  [("content-type", VString "application/json; charset=utf-8");
   ("content-length", VString "7")].

(** The text [{"a":1}], in two chunks. *)
Definition json_chunks : list string := ["{" +:+ q +:+ "a"; q +:+ ":1}"].

(** The text [{bad], in two chunks. *)
Definition bad_chunks : list string := ["{b"; "ad"].

(** [{url: 'http://example.com/items', method: 'POST', body: {a: 1}}] *)
Definition post_heap : list object :=
  [ plain [("url", VString "http://example.com/items");
           ("method", VString "POST");
           ("body", VObject 1)];
    plain [("a", VNumber 1)] ].

(** [{url: 'http://example.com/items', body: 42}] *)
Definition number_body_heap : list object :=
  [ plain [("url", VString "http://example.com/items"); ("body", VNumber 42)] ].

(** [{url: 'http://example.com/items', body: null}] *)
Definition null_body_heap : list object :=
  [ plain [("url", VString "http://example.com/items"); ("body", VNull)] ].

(** [{url: target, method: 'PUT', body: {a: 1}, headers: {'X-Token': 't'}}]
    with [target = {hostname: 'example.com', path: '/items'}] *)
Definition target_heap : list object :=
  [ plain [("url", VObject 1);
           ("method", VString "PUT");
           ("body", VObject 2);
           ("headers", VObject 3)];
    plain [("hostname", VString "example.com"); ("path", VString "/items")];
    plain [("a", VNumber 1)];
    plain [("X-Token", VString "t")] ].

(** [{url: target, method: 'PUT', body: 42}]
    with [target = {hostname: 'example.com', path: '/items', body: 'old'}] *)
Definition number_target_heap : list object :=
  [ plain [("url", VObject 1); ("method", VString "PUT"); ("body", VNumber 42)];
    plain [("hostname", VString "example.com"); ("path", VString "/items");
           ("body", VString "old")] ].

(** [{method: 'GET'}]: no [url] *)
Definition no_url_heap : list object := [ plain [("method", VString "GET")] ].

(** [{url: 42}] *)
Definition number_url_heap : list object := [ plain [("url", VNumber 42)] ].

(** [{url: f}] for a function [f] *)
Definition function_url_heap : list object := [ plain [("url", VFunction 1)]; plain [] ].

(** The text [{"a":1}] *)
Definition json_text : string := "{" +:+ q +:+ "a" +:+ q +:+ ":1}".

(** A JSON response that arrives whole. *)
Definition json_exchange : exchange :=
  run Reference.node 0 (started (called []))
    (EvResponse 200 json_headers :: map EvData json_chunks ++ [EvEnd]).

(** A JSON response whose text is not JSON. *)
Definition bad_exchange : exchange :=
  run Reference.node 0 (started (called []))
    (EvResponse 200 json_headers :: map EvData bad_chunks ++ [EvEnd]).

(** A response that is cut off after two chunks. *)
Definition cut_off : list event :=
  EvResponse 200 json_headers :: map EvData json_chunks ++ [EvClose].

(** The world in which the target of a sample input is resolved. *)
Definition resolved (h : list object) : world :=
  fst (resolve_target Reference.node (VObject 0) (called h)).

(** The first call of a program, with [target_heap] and with
    [number_target_heap]. *)
Definition put (node : runtime) : world * completion handle :=
  pRequest node (VObject 0) (caller target_heap).

Definition put_number (node : runtime) : world * completion handle :=
  pRequest node (VObject 0) (caller number_target_heap).

End Sample.

(** [no_io m]: [m] hands nothing to the transport. *)
Definition no_io {A} (m : M A) : Prop :=
  forall w, network (fst (m w)) = network w.

(** More sample inputs. *)
Module Cases.

(** [{url: 'http://example.com/items', method: 'POST', body: 'a=1'}] *)
Definition string_body_heap : list object :=
  [ plain [("url", VString "http://example.com/items");
           ("method", VString "POST");
           ("body", VString "a=1")] ].


(** [{url: 'http://example.com/items', body: b}] with [b.self = b] *)
Definition circular_heap : list object :=
  [ plain [("url", VString "http://example.com/items"); ("body", VObject 1)];
    plain [("self", VObject 1)] ].

(** [{url: 'http://example.com/items', body: {a: 1}, headers: 'x'}] *)
Definition primitive_headers_heap : list object :=
  [ plain [("url", VString "http://example.com/items");
           ("body", VObject 1);
           ("headers", VString "x")];
    plain [("a", VNumber 1)] ].

(** [{url: 'http://example.com/items', body: {a: 1}, headers: {'X-Token': 't'}}] *)
Definition shared_headers_heap : list object :=
  [ plain [("url", VString "http://example.com/items");
           ("body", VObject 1);
           ("headers", VObject 2)];
    plain [("a", VNumber 1)];
    plain [("X-Token", VString "t")] ].

(** [Content-Type: text/plain] *)
Definition text_headers : list (string * value) :=
  [("content-type", VString "text/plain")].

Definition text_chunks : list string := ["hel"; "lo"].

(** A text response that arrives whole. *)
Definition text_exchange : exchange :=
  run Reference.node 0 (started (called []))
    (EvResponse 200 text_headers :: map EvData text_chunks ++ [EvEnd]).

(** The world in which the target of a sample input is resolved, on a
    current Node. *)
Definition resolved_now (h : list object) : world :=
  fst (resolve_target Reference.strict_node (VObject 0) (called h)).

(** The world in which the target of [https://example.com/items] is
    resolved. *)
Definition https_resolved : world :=
  fst (resolve_target Reference.node (VString "https://example.com/items") (called [])).

(** Two calls of a program: the first request fails with ['boom'] before
    the second call is made. *)
Definition get_items : value := VString "http://example.com/items".

Definition first_call : world := fst (pRequest Reference.node get_items (caller [])).

Definition boom : exchange :=
  run Reference.node 0 (started first_call) [EvError (VString "boom")].

Definition second_call : world :=
  fst (pRequest Reference.node get_items (ex_world boom)).

End Cases.

(** ** Properties of property lists *)

Lemma lookup_store_eq k v ps : lookup_prop k (store_prop k v ps) = Some v.
Proof.
  induction ps as [|[k' v'] ps IH]; simpl.
  - by rewrite String.eqb_refl.
  - destruct (String.eqb k k') eqn:E; simpl.
    + by rewrite String.eqb_refl.
    + by rewrite E.
Qed.

Lemma lookup_store_ne k k' v ps :
  k <> k' -> lookup_prop k' (store_prop k v ps) = lookup_prop k' ps.
Proof.
  intros Hne. induction ps as [|[k0 v0] ps IH]; simpl.
  - destruct (String.eqb_spec k' k); congruence.
  - destruct (String.eqb_spec k k0) as [->|Hk]; simpl.
    + destruct (String.eqb_spec k' k0); congruence.
    + destruct (String.eqb_spec k' k0); congruence.
Qed.

Lemma lookup_remove_eq k ps : lookup_prop k (remove_prop k ps) = None.
Proof.
  induction ps as [|[k' v'] ps IH]; simpl; [done|].
  destruct (String.eqb k k') eqn:E; simpl; [done|]. by rewrite E.
Qed.

Lemma lookup_remove_ne k k' ps :
  k <> k' -> lookup_prop k' (remove_prop k ps) = lookup_prop k' ps.
Proof.
  intros Hne. induction ps as [|[k0 v0] ps IH]; simpl; [done|].
  destruct (String.eqb_spec k k0) as [->|Hk]; simpl.
  - destruct (String.eqb_spec k' k0); congruence.
  - destruct (String.eqb_spec k' k0); congruence.
Qed.

Lemma lookup_prop_None k ps : ~ In k (map fst ps) -> lookup_prop k ps = None.
Proof.
  induction ps as [|[k' v'] ps IH]; simpl; [done|].
  intros Hn. destruct (String.eqb_spec k k') as [->|Hk]; [tauto|]. apply IH. tauto.
Qed.

(** ** The accumulated text *)

Lemma string_append_assoc (a b c : string) : (a +:+ b) +:+ c = a +:+ (b +:+ c).
Proof.
  induction a as [|x a IH]; [done|].
  change (String x ((a +:+ b) +:+ c) = String x (a +:+ (b +:+ c))). by rewrite IH.
Qed.

Lemma string_append_empty (a : string) : a +:+ "" = a.
Proof.
  induction a as [|x a IH]; [done|].
  change (String x (a +:+ "") = String x a). by rewrite IH.
Qed.

Lemma concat_cons (c : string) (cs : list string) :
  String.concat "" (c :: cs) = c +:+ String.concat "" cs.
Proof.
  destruct cs as [|c' cs]; [symmetry; apply string_append_empty|done].
Qed.

(** The ['data'] handler appends: after all chunks [buf] is their
    concatenation, in the order of arrival. *)
Lemma accumulate_concat (chunks : list string) :
  accumulate chunks = String.concat "" chunks.
Proof.
  unfold accumulate.
  assert (H : forall buf, fold_left on_data chunks buf = buf +:+ String.concat "" chunks).
  { induction chunks as [|c cs IH]; intros buf.
    - symmetry. apply string_append_empty.
    - cbn [fold_left]. rewrite IH, concat_cons. unfold on_data.
      apply string_append_assoc. }
  apply H.
Qed.

(** ** Properties of the heap operations *)

Lemma field_store_eq h l k v :
  l < length h -> field (alter (obj_store k v) l h) (VObject l) k = v.
Proof.
  intros Hl. destruct (lookup_lt_is_Some_2 h l Hl) as [ob Hob].
  unfold field. rewrite list_lookup_alter_eq, Hob. simpl. by rewrite lookup_store_eq.
Qed.

Lemma field_store_ne h l k v o k' :
  o <> VObject l \/ k <> k' -> o <> VFunction l \/ k <> k' ->
  field (alter (obj_store k v) l h) o k' = field h o k'.
Proof.
  intros H1 H2. destruct o as [| | | | |l'|l']; try done; unfold field.
  - destruct (decide (l = l')) as [->|Hne].
    + rewrite list_lookup_alter_eq. destruct (h !! l'); [|done]. simpl.
      rewrite lookup_store_ne; [done|]. destruct H1; congruence.
    + by rewrite list_lookup_alter_ne.
  - destruct (decide (l = l')) as [->|Hne].
    + rewrite list_lookup_alter_eq. destruct (h !! l'); [|done]. simpl.
      rewrite lookup_store_ne; [done|]. destruct H2; congruence.
    + by rewrite list_lookup_alter_ne.
Qed.

Lemma field_function_object h l k : field h (VFunction l) k = field h (VObject l) k.
Proof. done. Qed.

Lemma field_app h h' o k : live h o -> field (h ++ h') o k = field h o k.
Proof.
  destruct o; try done; unfold field, live; intros Hl; by rewrite lookup_app_l.
Qed.

Lemma field_alloc h ob k :
  field (h ++ [ob]) (VObject (length h)) k = default VUndefined (lookup_prop k (props ob)).
Proof. unfold field. by rewrite list_lookup_middle. Qed.

Lemma live_app h h' o : live h o -> live (h ++ h') o.
Proof. destruct o; simpl; try done; rewrite length_app; lia. Qed.

Lemma live_alter h f l o : live (alter f l h) o <-> live h o.
Proof. destruct o; simpl; try done; by rewrite length_alter. Qed.

Lemma field_live h o k : field h o k <> VUndefined -> live h o.
Proof.
  destruct o as [| | | | |l|l]; simpl; try done.
  - destruct (h !! l) eqn:E; [|done]. intros _. by eapply lookup_lt_Some.
  - destruct (h !! l) eqn:E; [|done]. intros _. by eapply lookup_lt_Some.
Qed.

Lemma field_absent h o k : has_field h o k = false -> field h o k = VUndefined.
Proof.
  destruct o as [| | | | |l|l]; try done; unfold has_field, field;
    destruct (h !! l) as [ob|]; try done;
    by destruct (lookup_prop k (props ob)).
Qed.

Lemma field_not_key h o k : ~ In k (keys_of h o) -> field h (VObject o) k = VUndefined.
Proof.
  unfold keys_of, field. destruct (h !! o) as [ob|]; [|done].
  intros Hk. by rewrite lookup_prop_None.
Qed.

Lemma with_heap_with_heap h1 h2 w : with_heap h2 (with_heap h1 w) = with_heap h2 w.
Proof. done. Qed.

Lemma with_heap_id w : with_heap (heap_of w) w = w.
Proof. by destruct w. Qed.

Lemma alter_fresh (f : object -> object) (h : list object) ob :
  alter f (length h) (h ++ [ob]) = h ++ [f ob].
Proof.
  rewrite alter_app_r_alt by lia. by rewrite Nat.sub_diag.
Qed.

Lemma field_store_key_ne h l k v o k' :
  k <> k' -> field (alter (obj_store k v) l h) o k' = field h o k'.
Proof. intros Hk. apply field_store_ne; by right. Qed.

Lemma field_store_ref h o l k v :
  (o = VObject l \/ o = VFunction l) -> l < length h ->
  field (alter (obj_store k v) l h) o k = v.
Proof. intros [->| ->] Hl; by apply field_store_eq. Qed.

(** The location behind a live reference. *)
Lemma live_ref h o : live h o -> exists l, (o = VObject l \/ o = VFunction l) /\ l < length h.
Proof. destruct o; simpl; try done; eauto. Qed.

Lemma set_prop_ref strict o l k v w :
  (o = VObject l \/ o = VFunction l) ->
  set_prop strict o k v w = (with_heap (alter (obj_store k v) l (heap_of w)) w, Normal tt).
Proof. by intros [->| ->]. Qed.

(** ** Operations that touch only the heap *)

Lemma heap_only_ret {A} (a : A) : heap_only (ret a).
Proof. done. Qed.

Lemma heap_only_bind {A B} (m : M A) (k : A -> M B) :
  heap_only m -> (forall a, heap_only (k a)) -> heap_only (bind m k).
Proof.
  intros Hm Hk w. unfold bind. specialize (Hm w).
  destruct (m w) as [w' [a|e]]; simpl in *; [|done].
  specialize (Hk a w'). destruct Hk as [-> ->]. done.
Qed.

Lemma heap_only_alloc ob : heap_only (alloc ob).
Proof. done. Qed.

Lemma heap_only_throw_error {A} name msg : heap_only (@throw_error A name msg).
Proof. done. Qed.

Lemma heap_only_get_prop o k : heap_only (get_prop o k).
Proof. by destruct o. Qed.

Lemma heap_only_set_prop strict o k v : heap_only (set_prop strict o k v).
Proof. by destruct o, strict. Qed.

Lemma heap_only_delete_prop o k : heap_only (delete_prop o k).
Proof. by destruct o. Qed.

Lemma heap_only_own_keys o : heap_only (own_keys o).
Proof. by destruct o. Qed.

Lemma heap_only_if {A} (b : bool) (m1 m2 : M A) :
  heap_only m1 -> heap_only m2 -> heap_only (if b then m1 else m2).
Proof. by destruct b. Qed.

Create HintDb heap_only.

#[local] Hint Resolve heap_only_ret heap_only_alloc heap_only_throw_error
  heap_only_get_prop heap_only_set_prop heap_only_delete_prop heap_only_own_keys
  : heap_only.

#[local] Ltac heap_only_tac :=
  repeat first
    [ apply heap_only_bind; [|intros ?]
    | apply heap_only_if
    | progress auto with heap_only ].

(** ** The blocks of [pRequest] *)

Arguments field : simpl never.

Lemma get_prop_eq o k w :
  o <> VUndefined -> o <> VNull -> get_prop o k w = (w, Normal (field (heap_of w) o k)).
Proof. by destruct o. Qed.

Lemma get_prop_object l k w :
  get_prop (VObject l) k w = (w, Normal (field (heap_of w) (VObject l) k)).
Proof. done. Qed.

Lemma has_field_deleted o k w :
  has_field (heap_of (fst (delete_prop o k w))) o k = false.
Proof.
  destruct o as [| | | | |l|l]; try done; simpl; rewrite list_lookup_alter_eq;
    destruct (heap_of w !! l); simpl; try done; by rewrite lookup_remove_eq.
Qed.

Section Request.

Variable node : runtime.

Lemma pRequest_unfold options w :
  pRequest node options w =
  match resolve_target node options (with_deferred Pending w) with
  | (w1, Normal None) => (w1, Normal (RejectedPromise (VString "Missing URL")))
  | (w1, Normal (Some requestOptions)) =>
      match prepare_body node requestOptions w1 with
      | (w2, Normal _) =>
          match send node requestOptions w2 with
          | (w3, Normal _) => (w3, Normal (DeferredPromise (length (deferreds w))))
          | (w3, Throw e) => (w3, Throw e)
          end
      | (w2, Throw e) => (w2, Throw e)
      end
  | (w1, Throw e) => (w1, Throw e)
  end.
Proof.
  unfold pRequest, bind, when_defer.
  destruct (resolve_target node options (with_deferred Pending w)) as [w1 [[ro|]|e]]; done.
Qed.

Lemma heap_only_url_parse u : heap_only (url_parse node u).
Proof. destruct u; simpl; auto with heap_only. Qed.

Lemma heap_only_extend_loop origin add keys :
  heap_only (extend_loop node origin add keys).
Proof. induction keys; simpl; heap_only_tac. Qed.

Lemma heap_only_util_extend origin add : heap_only (util_extend node origin add).
Proof.
  unfold util_extend. heap_only_tac. apply heap_only_extend_loop.
Qed.

Lemma heap_only_resolve_target options : heap_only (resolve_target node options).
Proof.
  unfold resolve_target. heap_only_tac;
    auto using heap_only_url_parse, heap_only_util_extend, heap_only_extend_loop.
Qed.

Lemma resolve_target_io options w w1 c :
  resolve_target node options (with_deferred Pending w) = (w1, c) ->
  deferreds w1 = deferreds w ++ [Pending] /\ network w1 = network w.
Proof.
  intros H. destruct (heap_only_resolve_target options (with_deferred Pending w)) as [Hd Hn].
  rewrite H in Hd, Hn. done.
Qed.


(** A body that [typeof] calls neither ['object'] nor ['string'] is deleted. *)
Lemma prepare_body_other requestOptions w :
  requestOptions <> VUndefined -> requestOptions <> VNull ->
  typeof (field (heap_of w) requestOptions "body") <> "object" ->
  typeof (field (heap_of w) requestOptions "body") <> "string" ->
  prepare_body node requestOptions w = delete_prop requestOptions "body" w.
Proof.
  intros H1 H2 Ho Hs. unfold prepare_body, bind.
  rewrite get_prop_eq by done.
  apply String.eqb_neq in Ho, Hs. by rewrite Ho, Hs.
Qed.

(** A target that the transport takes is sent with its body. *)
Lemma send_eq requestOptions w :
  requestOptions <> VUndefined -> requestOptions <> VNull ->
  http_request_refusal node (heap_of w) requestOptions = None ->
  send node requestOptions w
  = (mkWorld (heap_of w) (deferreds w)
             (network w ++ [mkRequest requestOptions
                                      (field (heap_of w) requestOptions "body")]),
     Normal tt).
Proof.
  intros H1 H2 Ha. unfold send, bind, http_request. rewrite Ha.
  by rewrite get_prop_eq.
Qed.

(** A target that the transport refuses: [http.request] throws, and [.end]
    is never reached. *)
Lemma send_refused requestOptions name msg w :
  http_request_refusal node (heap_of w) requestOptions = Some (name, msg) ->
  send node requestOptions w
  = (with_heap (heap_of w ++ [error_object name msg]) w,
     Throw (VObject (length (heap_of w)))).
Proof. intros Ha. unfold send, bind, http_request. by rewrite Ha. Qed.

(** [util._extend] onto an object that exists: every listed key of [add] is
    copied, the other properties and the other objects stay. *)
Lemma extend_loop_ref target t o keys w :
  (target = VObject t \/ target = VFunction t) -> t < length (heap_of w) ->
  exists h',
    extend_loop node target (VObject o) keys w = (with_heap h' w, Normal tt)
    /\ length h' = length (heap_of w)
    /\ (forall l, l <> t -> h' !! l = heap_of w !! l)
    /\ (forall k, In k keys -> field h' target k = field (heap_of w) (VObject o) k)
    /\ (forall k, ~ In k keys -> field h' target k = field (heap_of w) target k).
Proof.
  intros Htg. revert w. induction keys as [|k ks IH]; intros w Ht.
  - exists (heap_of w). simpl. unfold ret. rewrite with_heap_id. by repeat split.
  - cbn [extend_loop]. unfold bind. rewrite get_prop_object.
    rewrite (set_prop_ref _ _ t) by done.
    set (v := field (heap_of w) (VObject o) k).
    set (h1 := alter (obj_store k v) t (heap_of w)).
    assert (Hadd : forall k', field h1 (VObject o) k' = field (heap_of w) (VObject o) k').
    { intros k'. subst h1. destruct (decide (o = t)) as [->|Hot].
      - destruct (decide (k = k')) as [<-|Hk].
        + by rewrite field_store_eq.
        + by rewrite field_store_key_ne.
      - apply field_store_ne; left; congruence. }
    destruct (IH (with_heap h1 w)) as (h' & Hrun & Hlen & Hother & Hin & Hout).
    { cbn [heap_of with_heap]. subst h1. by rewrite length_alter. }
    cbn [heap_of with_heap] in *.
    exists h'. rewrite Hrun, with_heap_with_heap.
    split; [done|]. split; [subst h1; by rewrite Hlen, length_alter|].
    split; [|split].
    + intros l Hl. rewrite Hother by done. subst h1. by rewrite list_lookup_alter_ne.
    + intros k' [<-|Hk'].
      * destruct (in_dec string_dec k ks) as [Hi|Hni].
        -- by rewrite Hin, Hadd.
        -- rewrite Hout by done. subst h1. by rewrite (field_store_ref _ _ t).
      * by rewrite Hin, Hadd.
    + intros k' Hk'. simpl in Hk'. rewrite Hout by tauto.
      subst h1. apply field_store_key_ne. tauto.
Qed.

Lemma own_keys_object o w :
  own_keys (VObject o) w = (w, Normal (keys_of (heap_of w) o)).
Proof. done. Qed.

(** Lines 52-54 when [options.url] is not a string: the value itself is the
    target. *)
Lemma resolve_target_object o w :
  let u := field (heap_of w) (VObject o) "url" in
  typeof u <> "string" ->
  resolve_target node (VObject o) w
  = match extend_loop node u (VObject o) (rev (keys_of (heap_of w) o)) w with
    | (w', Normal _) => (w', Normal (Some u))
    | (w', Throw e) => (w', Throw e)
    end.
Proof.
  intros u Hu. unfold resolve_target, bind.
  change (String.eqb (typeof (VObject o)) "object") with true. cbv beta iota.
  rewrite get_prop_object. fold u.
  apply String.eqb_neq in Hu. rewrite Hu. unfold ret at 1.
  unfold util_extend, bind.
  change (negb (truthy (VObject o)) || negb (String.eqb (typeof (VObject o)) "object"))
    with false. cbv beta iota.
  rewrite own_keys_object.
  by destruct (extend_loop node u (VObject o) (rev (keys_of (heap_of w) o)) w)
    as [w' [[]|e]].
Qed.

(** The pre-parsed target is extended in place. *)
Lemma resolve_target_ref o t target w :
  field (heap_of w) (VObject o) "url" = target ->
  (target = VObject t \/ target = VFunction t) -> t < length (heap_of w) ->
  exists h',
    resolve_target node (VObject o) w = (with_heap h' w, Normal (Some target))
    /\ length h' = length (heap_of w)
    /\ (forall l, l <> t -> h' !! l = heap_of w !! l)
    /\ (forall k, In k (keys_of (heap_of w) o) ->
                 field h' target k = field (heap_of w) (VObject o) k)
    /\ (forall k, ~ In k (keys_of (heap_of w) o) ->
                 field h' target k = field (heap_of w) target k).
Proof.
  intros Hurl Htg Ht.
  rewrite resolve_target_object by (rewrite Hurl; by destruct Htg as [->| ->]).
  rewrite Hurl.
  destruct (extend_loop_ref target t o (rev (keys_of (heap_of w) o)) w Htg Ht)
    as (h' & Hrun & Hlen & Hother & Hin & Hout).
  exists h'. rewrite Hrun. split; [done|]. split; [done|]. split; [done|].
  split.
  - intros k Hk. apply Hin. by apply in_rev in Hk.
  - intros k Hk. apply Hout. intros Hr. apply Hk. by apply in_rev.
Qed.

(** What [pRequest] does once the target is resolved and the body prepared. *)
Lemma pRequest_from_target options w w1 w2 requestOptions :
  resolve_target node options (with_deferred Pending w)
    = (w1, Normal (Some requestOptions)) ->
  prepare_body node requestOptions w1 = (w2, Normal tt) ->
  requestOptions <> VUndefined -> requestOptions <> VNull ->
  http_request_refusal node (heap_of w2) requestOptions = None ->
  pRequest node options w
  = (mkWorld (heap_of w2) (deferreds w2)
       (network w2 ++ [mkRequest requestOptions
                                 (field (heap_of w2) requestOptions "body")]),
     Normal (DeferredPromise (length (deferreds w)))).
Proof.
  intros Ht Hb H1 H2 Ha. rewrite pRequest_unfold, Ht, Hb. by rewrite send_eq.
Qed.

(** X1: An input that [typeof] calls neither ['object'] nor ['string'] gets an
    already rejected promise, and nothing reaches the transport. *)
Lemma pRequest_invalid_input options w :
  typeof options <> "object" -> typeof options <> "string" ->
  pRequest node options w
  = (with_deferred Pending w, Normal (RejectedPromise (VString "Missing URL"))).
Proof.
  intros Ho Hs. destruct options; simpl in Ho, Hs; try done.
Qed.

(** In sloppy mode an assignment always completes. *)
Lemma set_prop_sloppy o k v w :
  o <> VUndefined -> o <> VNull ->
  set_prop false o k v w = (with_heap (store_on o k v (heap_of w)) w, Normal tt).
Proof.
  destruct o; try done; intros _ _; simpl; unfold ret; by rewrite with_heap_id.
Qed.

Lemma length_store_on o k v h : length (store_on o k v h) = length h.
Proof. destruct o; simpl; try done; by rewrite length_alter. Qed.

Lemma field_store_on_key_ne o k v h o' k' :
  k <> k' -> field (store_on o k v h) o' k' = field h o' k'.
Proof. intros Hk. destruct o; simpl; try done; by apply field_store_key_ne. Qed.

Lemma field_store_on_eq o k v h : live h o -> field (store_on o k v h) o k = v.
Proof.
  intros Hl. destruct (live_ref _ _ Hl) as (l & [->| ->] & Hlt); simpl;
    by rewrite (field_store_ref _ _ l) by (done || by (left + right)).
Qed.

Lemma lookup_store_on_ne o k v h l :
  o <> VObject l -> o <> VFunction l -> store_on o k v h !! l = h !! l.
Proof.
  intros H1 H2. destruct o as [| | | | |l'|l']; simpl; try done;
    rewrite list_lookup_alter_ne; congruence.
Qed.

Lemma live_store_on o k v h o' : live (store_on o k v h) o' <-> live h o'.
Proof. destruct o'; simpl; try done; by rewrite length_store_on. Qed.

Lemma has_field_app h h' o k : live h o -> has_field (h ++ h') o k = has_field h o k.
Proof.
  destruct o; try done; unfold has_field, live; intros Hl; by rewrite lookup_app_l.
Qed.

Lemma truthy_defined v : truthy v = true -> v <> VUndefined /\ v <> VNull.
Proof. by destruct v. Qed.

(** A body that [typeof] calls ['object'] and that [JSON.stringify] takes is
    replaced by its JSON text, and the headers that the target refers to,
    created when there are none, get [Content-Type] and [Accept]; nothing
    else is written. *)
Lemma prepare_body_structured requestOptions t w s :
  let h := heap_of w in
  let b := field h requestOptions "body" in
  let hs := field h requestOptions "headers" in
  (requestOptions = VObject t \/ requestOptions = VFunction t) -> t < length h ->
  typeof b = "object" ->
  JSON_stringify_text node h b = Some s ->
  exists h2,
    prepare_body node requestOptions w = (with_heap h2 w, Normal tt)
    /\ length h <= length h2
    /\ field h2 requestOptions "body" = VString s
    /\ field h2 requestOptions "headers"
       = (if truthy hs then hs else VObject (length h))
    /\ (truthy hs = false \/ live h hs ->
        live h2 (field h2 requestOptions "headers")
        /\ field h2 (field h2 requestOptions "headers") "Content-Type"
           = VString "application/json"
        /\ field h2 (field h2 requestOptions "headers") "Accept"
           = VString "application/json")
    /\ (forall v k, k <> "body" -> k <> "headers" ->
                 k <> "Content-Type" -> k <> "Accept" ->
                 live h v -> field h2 v k = field h v k)
    /\ (forall l, l < length h -> l <> t -> hs <> VObject l -> hs <> VFunction l ->
                 h2 !! l = h !! l).
Proof.
  intros h b hs Hro Ht Hty Hstr.
  assert (Hnu : requestOptions <> VUndefined) by (destruct Hro; congruence).
  assert (Hnn : requestOptions <> VNull) by (destruct Hro; congruence).
  set (json := VString "application/json").
  set (hs' := if truthy hs then hs else VObject (length h)).
  set (ha := alter (obj_store "body" (VString s)) t h).
  set (hb := if truthy hs then ha else ha ++ [plain []]).
  set (hc := alter (obj_store "headers" hs') t hb).
  set (h2 := store_on hs' "Accept" json (store_on hs' "Content-Type" json hc)).
  assert (Hla : length ha = length h) by (subst ha; by rewrite length_alter).
  assert (Hlb : length h <= length hb /\ t < length hb).
  { subst hb. destruct (truthy hs); rewrite ?length_app, Hla; simpl; lia. }
  assert (Hhs' : hs' <> VUndefined /\ hs' <> VNull).
  { subst hs'. destruct (truthy hs) eqn:E; [by apply truthy_defined|done]. }
  assert (Hhc : field hc requestOptions "headers" = hs').
  { subst hc. rewrite (field_store_ref _ _ t); [done|done|lia]. }
  assert (Hprep : prepare_body node requestOptions w = (with_heap h2 w, Normal tt)).
  { unfold prepare_body, bind.
    rewrite get_prop_eq by done. fold h b.
    apply String.eqb_eq in Hty. rewrite Hty.
    unfold JSON_stringify. fold h. rewrite Hstr.
    rewrite (set_prop_ref _ _ t) by done. fold h ha.
    rewrite get_prop_eq by done. cbn [heap_of with_heap].
    assert (Hha : field ha requestOptions "headers" = hs)
      by (unfold ha; by rewrite field_store_key_ne).
    rewrite Hha.
    assert (Hmk : (if truthy hs then ret hs else alloc (plain [])) (with_heap ha w)
                  = (with_heap hb w, Normal hs')).
    { subst hb hs'. destruct (truthy hs); [done|].
      unfold alloc. cbn [heap_of with_heap]. by rewrite Hla. }
    rewrite Hmk.
    rewrite (set_prop_ref _ _ t) by done. cbn [heap_of with_heap]. fold hc.
    rewrite get_prop_eq by done. cbn [heap_of with_heap]. rewrite Hhc.
    rewrite set_prop_sloppy by tauto. cbn [heap_of with_heap].
    rewrite get_prop_eq by done. cbn [heap_of with_heap].
    rewrite field_store_on_key_ne by done. rewrite Hhc.
    rewrite set_prop_sloppy by tauto. cbn [heap_of with_heap].
    by rewrite !with_heap_with_heap. }
  assert (Hl2 : length h2 = length hb).
  { subst h2 hc. by rewrite !length_store_on, length_alter. }
  assert (Hh2 : field h2 requestOptions "headers" = hs').
  { subst h2. by rewrite !field_store_on_key_ne. }
  exists h2. split; [done|]. split; [lia|]. split; [|split; [done|split; [|split]]].
  - subst h2 hc. rewrite !field_store_on_key_ne by done.
    rewrite field_store_key_ne by done.
    assert (Hb : field hb requestOptions "body" = field ha requestOptions "body").
    { subst hb. destruct (truthy hs); [done|]. apply field_app.
      destruct Hro as [->| ->]; simpl; lia. }
    rewrite Hb. subst ha. by rewrite (field_store_ref _ _ t).
  - intros Hhs. rewrite Hh2.
    assert (Hlive : live hc hs').
    { subst hs' hc hb. apply live_alter. destruct (truthy hs) eqn:E.
      - destruct Hhs as [?|Hhs]; [done|]. subst ha. by apply live_alter.
      - simpl. rewrite length_app, Hla. simpl. lia. }
    split; [subst h2; by rewrite !live_store_on|]. split.
    + subst h2. rewrite field_store_on_key_ne by done.
      by apply field_store_on_eq.
    + subst h2. apply field_store_on_eq. by rewrite live_store_on.
  - intros v k K1 K2 K3 K4 Hv. subst h2 hc.
    rewrite !field_store_on_key_ne by congruence.
    rewrite field_store_key_ne by congruence.
    assert (Hb : field hb v k = field ha v k).
    { subst hb. destruct (truthy hs); [done|]. apply field_app.
      subst ha. by apply live_alter. }
    rewrite Hb. subst ha. by rewrite field_store_key_ne by congruence.
  - intros l Hl Hlt H1 H2. subst h2.
    assert (Hne : hs' <> VObject l /\ hs' <> VFunction l).
    { subst hs'. destruct (truthy hs); [done|]. split; [|done].
      intros [= E]. lia. }
    rewrite !lookup_store_on_ne by tauto. subst hc.
    rewrite list_lookup_alter_ne by done.
    assert (Hb : hb !! l = ha !! l).
    { subst hb. destruct (truthy hs); [done|]. apply lookup_app_l. lia. }
    rewrite Hb. subst ha. by rewrite list_lookup_alter_ne.
Qed.

Lemma delete_prop_eq o k w :
  o <> VUndefined -> o <> VNull ->
  exists h', delete_prop o k w = (with_heap h' w, Normal tt)
             /\ length h' = length (heap_of w)
             /\ has_field h' o k = false /\ field h' o k = VUndefined
             /\ (forall v k', k' <> k -> field h' v k' = field (heap_of w) v k')
             /\ (forall l, o <> VObject l -> o <> VFunction l -> h' !! l = heap_of w !! l).
Proof.
  intros H1 H2. destruct o as [| | | | |l|l]; try done;
    try (exists (heap_of w); by rewrite with_heap_id).
  all: eexists; split; [reflexivity|]; split; [by rewrite length_alter|];
    split; [|split; [|split]].
  all: try (unfold has_field, field; rewrite list_lookup_alter_eq;
            destruct (heap_of w !! l); simpl; try done; by rewrite lookup_remove_eq).
  all: try (intros l' Hl1 Hl2; rewrite list_lookup_alter_ne; congruence).
  all: intros v k' Hk; destruct v as [| | | | |l'|l']; try done; unfold field;
    (destruct (decide (l = l')) as [->|Hne];
     [rewrite list_lookup_alter_eq; destruct (heap_of w !! l'); [|done]; simpl;
      by rewrite lookup_remove_ne by congruence
     |by rewrite list_lookup_alter_ne]).
Qed.

Lemma heap_only_JSON_stringify v : heap_only (JSON_stringify node v).
Proof.
  intros w. unfold JSON_stringify.
  by destruct (JSON_stringify_text node (heap_of w) v).
Qed.

Lemma heap_only_prepare_body requestOptions : heap_only (prepare_body node requestOptions).
Proof.
  unfold prepare_body. heap_only_tac; apply heap_only_JSON_stringify.
Qed.

Lemma prepare_body_io requestOptions w w' c :
  prepare_body node requestOptions w = (w', c) ->
  deferreds w' = deferreds w /\ network w' = network w.
Proof.
  intros H. destruct (heap_only_prepare_body requestOptions w) as [Hd Hn].
  by rewrite H in Hd, Hn.
Qed.

Lemma prepare_body_needs_target requestOptions w w' :
  prepare_body node requestOptions w = (w', Normal tt) ->
  requestOptions <> VUndefined /\ requestOptions <> VNull.
Proof. by destruct requestOptions. Qed.

(** A string body is left as it is. *)
Lemma prepare_body_string requestOptions w :
  requestOptions <> VUndefined -> requestOptions <> VNull ->
  typeof (field (heap_of w) requestOptions "body") = "string" ->
  prepare_body node requestOptions w = (w, Normal tt).
Proof.
  intros H1 H2 Hs. unfold prepare_body, bind. rewrite get_prop_eq by done.
  by rewrite Hs.
Qed.

(** A body that [JSON.stringify] refuses. *)
Lemma prepare_body_unserializable requestOptions w :
  requestOptions <> VUndefined -> requestOptions <> VNull ->
  typeof (field (heap_of w) requestOptions "body") = "object" ->
  JSON_stringify_text node (heap_of w) (field (heap_of w) requestOptions "body") = None ->
  prepare_body node requestOptions w
  = (with_heap (heap_of w ++ [error_object "TypeError" "Converting circular structure to JSON"]) w,
     Throw (VObject (length (heap_of w)))).
Proof.
  intros H1 H2 Hty Hnone. unfold prepare_body, bind. rewrite get_prop_eq by done.
  apply String.eqb_eq in Hty. rewrite Hty. unfold JSON_stringify. by rewrite Hnone.
Qed.

(** What follows the preparation of the body: [http.request] takes the
    target and the request leaves with the body as payload, or it throws
    and nothing leaves. *)
Lemma pRequest_prepared options w w1 hp requestOptions :
  let r := pRequest node options w in
  resolve_target node options (with_deferred Pending w)
    = (w1, Normal (Some requestOptions)) ->
  prepare_body node requestOptions w1 = (with_heap hp w1, Normal tt) ->
  exists h',
    heap_of (fst r) = hp ++ h'
    /\ deferreds (fst r) = deferreds w ++ [Pending]
    /\ (forall hd, snd r = Normal hd ->
          hd = DeferredPromise (length (deferreds w))
          /\ network (fst r)
             = network w ++ [mkRequest requestOptions (field hp requestOptions "body")])
    /\ (forall e, snd r = Throw e -> network (fst r) = network w).
Proof.
  intros r Ht Hb. subst r.
  destruct (resolve_target_io _ _ _ _ Ht) as [Hd Hn].
  destruct (prepare_body_needs_target _ _ _ Hb) as [H1 H2].
  rewrite pRequest_unfold, Ht, Hb.
  destruct (http_request_refusal node hp requestOptions) as [[name msg]|] eqn:Hr.
  - rewrite (send_refused _ name msg) by done.
    cbn [fst snd heap_of deferreds network with_heap].
    exists [error_object name msg]. by repeat split.
  - rewrite send_eq by done.
    cbn [fst snd heap_of deferreds network with_heap].
    exists []. rewrite app_nil_r, Hn. split; [done|]. split; [done|].
    split; [|done]. intros hd [= <-]. done.
Qed.

(** X2: When the resolved body has a [typeof] other than ['object'] and
    ['string'] (it is absent, a number, a boolean or a function) and
    [http.request] takes the target, the [body] property is deleted from
    the target and the request is ended without a payload. *)
Theorem body_of_other_type_is_dropped options w w1 requestOptions :
  resolve_target node options (with_deferred Pending w)
    = (w1, Normal (Some requestOptions)) ->
  requestOptions <> VUndefined -> requestOptions <> VNull ->
  typeof (field (heap_of w1) requestOptions "body") <> "object" ->
  typeof (field (heap_of w1) requestOptions "body") <> "string" ->
  accepted node requestOptions w1 ->
  exists w2,
    pRequest node options w = (w2, Normal (DeferredPromise (length (deferreds w))))
    /\ has_field (heap_of w2) requestOptions "body" = false
    /\ network w2 = network w ++ [mkRequest requestOptions VUndefined].
Proof.
  intros Ht H1 H2 Ho Hs Hacc.
  destruct (resolve_target_io _ _ _ _ Ht) as [_ Hnet].
  destruct (delete_prop_eq requestOptions "body" w1 H1 H2)
    as (h' & Hdel & _ & Hhas & Hf & _).
  assert (Hprep : prepare_body node requestOptions w1 = (with_heap h' w1, Normal tt))
    by (by rewrite prepare_body_other).
  unfold accepted in Hacc. rewrite Hprep in Hacc. cbn [fst] in Hacc.
  eexists. split.
  - exact (pRequest_from_target options w w1 _ requestOptions Ht Hprep H1 H2 Hacc).
  - cbn [heap_of network with_heap]. by rewrite Hf, Hnet.
Qed.

(** The request that a structured body leads to. *)
Lemma structured_body_request options w w1 requestOptions t s :
  let b := field (heap_of w1) requestOptions "body" in
  let hs := field (heap_of w1) requestOptions "headers" in
  resolve_target node options (with_deferred Pending w)
    = (w1, Normal (Some requestOptions)) ->
  (requestOptions = VObject t \/ requestOptions = VFunction t) ->
  t < length (heap_of w1) ->
  typeof b = "object" ->
  JSON_stringify_text node (heap_of w1) b = Some s ->
  accepted node requestOptions w1 ->
  exists w2 rq,
    pRequest node options w = (w2, Normal (DeferredPromise (length (deferreds w))))
    /\ network w2 = network w ++ [rq]
    /\ req_options rq = requestOptions
    /\ req_payload rq = VString s
    /\ field (heap_of w2) requestOptions "body" = VString s
    /\ field (heap_of w2) requestOptions "headers"
       = (if truthy hs then hs else VObject (length (heap_of w1)))
    /\ (truthy hs = false \/ live (heap_of w1) hs ->
        request_header (heap_of w2) rq "Content-Type" = VString "application/json"
        /\ request_header (heap_of w2) rq "Accept" = VString "application/json")
    /\ length (heap_of w1) <= length (heap_of w2)
    /\ (forall k, k <> "body" -> k <> "headers" ->
                 k <> "Content-Type" -> k <> "Accept" ->
                 field (heap_of w2) requestOptions k
                 = field (heap_of w1) requestOptions k).
Proof.
  intros b hs Ht Hro Hlt Hty Hstr Hacc.
  destruct (resolve_target_io _ _ _ _ Ht) as [_ Hnet].
  destruct (prepare_body_structured requestOptions t w1 s Hro Hlt Hty Hstr)
    as (h2 & Hprep & Hlen & Hb & Hh & Hhead & Hframe & _).
  unfold accepted in Hacc. rewrite Hprep in Hacc. cbn [fst] in Hacc.
  assert (Hnu : requestOptions <> VUndefined) by (destruct Hro; congruence).
  assert (Hnn : requestOptions <> VNull) by (destruct Hro; congruence).
  do 2 eexists. split.
  - exact (pRequest_from_target options w w1 _ requestOptions Ht Hprep Hnu Hnn Hacc).
  - cbn [heap_of network with_heap req_options req_payload].
    unfold request_header. cbn [req_options].
    rewrite Hnet, Hb. fold hs in Hh, Hhead.
    split; [done|]. split; [done|]. split; [done|]. split; [done|].
    split; [done|]. split; [intros Hhs; by apply Hhead|].
    split; [done|]. intros k K1 K2 K3 K4. apply Hframe; try done.
    destruct Hro as [->| ->]; exact Hlt.
Qed.

(** C6: when the resolved body is an object and [http.request] takes the
    target, the payload of the request is the JSON text of the body, and
    the headers of the request, a new mapping when the target had none,
    carry [Content-Type] and [Accept] [application/json]. *)
Theorem structured_body_is_sent_as_json options w w1 requestOptions b s :
  let hs := field (heap_of w1) requestOptions "headers" in
  resolve_target node options (with_deferred Pending w)
    = (w1, Normal (Some requestOptions)) ->
  field (heap_of w1) requestOptions "body" = VObject b ->
  JSON_stringify_text node (heap_of w1) (VObject b) = Some s ->
  truthy hs = false \/ live (heap_of w1) hs ->
  accepted node requestOptions w1 ->
  exists w2 rq,
    pRequest node options w = (w2, Normal (DeferredPromise (length (deferreds w))))
    /\ network w2 = network w ++ [rq]
    /\ req_options rq = requestOptions
    /\ req_payload rq = VString s
    /\ field (heap_of w2) requestOptions "body" = VString s
    /\ request_header (heap_of w2) rq "Content-Type" = VString "application/json"
    /\ request_header (heap_of w2) rq "Accept" = VString "application/json"
    /\ field (heap_of w2) requestOptions "headers"
       = (if truthy hs then hs else VObject (length (heap_of w1)))
    /\ length (heap_of w1) <= length (heap_of w2).
Proof.
  intros hs Ht Hbody Hstr Hhs Hacc.
  assert (Hl : live (heap_of w1) requestOptions).
  { apply (field_live _ _ "body"). by rewrite Hbody. }
  destruct (live_ref _ _ Hl) as (t & Hro & Hlt).
  destruct (structured_body_request options w w1 requestOptions t s Ht Hro Hlt)
    as (w2 & rq & H1 & H2 & H3 & H4 & H5 & H6 & H7 & H8 & _);
    [by rewrite Hbody|by rewrite Hbody|done|].
  destruct (H7 Hhs) as [Hct Hac].
  exists w2, rq. by repeat split.
Qed.

(** What a call leaves on its target, whatever the body and however the
    call ends. *)
Lemma pRequest_on_target options w w1 requestOptions t :
  let h1 := heap_of w1 in
  let b := field h1 requestOptions "body" in
  let hs := field h1 requestOptions "headers" in
  let r := pRequest node options w in
  let h2 := heap_of (fst r) in
  resolve_target node options (with_deferred Pending w)
    = (w1, Normal (Some requestOptions)) ->
  (requestOptions = VObject t \/ requestOptions = VFunction t) -> t < length h1 ->
  length h1 <= length h2
  /\ (forall hd, snd r = Normal hd ->
        hd = DeferredPromise (length (deferreds w))
        /\ network (fst r)
           = network w ++ [mkRequest requestOptions (field h2 requestOptions "body")])
  /\ (forall e, snd r = Throw e -> network (fst r) = network w)
  /\ (forall v k, k <> "body" -> k <> "headers" ->
                 k <> "Content-Type" -> k <> "Accept" ->
                 live h1 v -> field h2 v k = field h1 v k)
  /\ (forall l, l < length h1 -> l <> t ->
        (typeof b = "object" -> hs <> VObject l /\ hs <> VFunction l) ->
        h2 !! l = h1 !! l)
  /\ (typeof b = "string" -> field h2 requestOptions "body" = b)
  /\ (typeof b <> "string" -> typeof b <> "object" ->
        has_field h2 requestOptions "body" = false)
  /\ (typeof b <> "object" ->
        forall v k, k <> "body" -> live h1 v -> field h2 v k = field h1 v k)
  /\ (typeof b = "object" -> forall s,
        JSON_stringify_text node h1 b = Some s ->
        field h2 requestOptions "body" = VString s
        /\ field h2 requestOptions "headers"
           = (if truthy hs then hs else VObject (length h1))
        /\ (truthy hs = false \/ live h1 hs ->
            field h2 (field h2 requestOptions "headers") "Content-Type"
            = VString "application/json"
            /\ field h2 (field h2 requestOptions "headers") "Accept"
               = VString "application/json"))
  /\ (typeof b = "object" -> JSON_stringify_text node h1 b = None ->
        (exists e, snd r = Throw e)
        /\ forall v k, live h1 v -> field h2 v k = field h1 v k).
Proof.
  intros h1 b hs r h2 Ht Hro Hlt.
  assert (Hnu : requestOptions <> VUndefined) by (destruct Hro; congruence).
  assert (Hnn : requestOptions <> VNull) by (destruct Hro; congruence).
  assert (Hlive : live h1 requestOptions) by (destruct Hro as [->| ->]; exact Hlt).
  destruct (resolve_target_io _ _ _ _ Ht) as [Hd Hn].
  destruct (decide (typeof b = "object")) as [Hobj|Hobj].
  - assert (Hns : typeof b <> "string") by (rewrite Hobj; done).
    destruct (JSON_stringify_text node h1 b) as [s|] eqn:Hstr.
    + destruct (prepare_body_structured requestOptions t w1 s Hro Hlt Hobj Hstr)
        as (hp & Hprep & Hlen & Hb & Hh & Hhead & Hframe & Hother).
      fold h1 hs in Hprep, Hlen, Hh, Hhead, Hframe, Hother.
      destruct (pRequest_prepared options w w1 hp requestOptions Ht Hprep)
        as (h' & Hheap & _ & Hnormal & Hthrow).
      fold r in Hheap, Hnormal, Hthrow. fold h2 in Hheap.
      assert (Hlp : live hp requestOptions).
      { destruct Hro as [->| ->]; simpl; lia. }
      assert (Hfield : forall v k, live hp v -> field h2 v k = field hp v k).
      { intros v k Hv. rewrite Hheap. by apply field_app. }
      split; [rewrite Hheap, length_app; lia|].
      split; [intros hd Hhd; rewrite Hfield by done; by apply Hnormal|].
      split; [done|].
      split.
      { intros v k K1 K2 K3 K4 Hv. rewrite Hfield; [by apply Hframe|].
        destruct v; simpl in *; try done; lia. }
      split.
      { intros l Hl Hne Hhs. rewrite Hheap, lookup_app_l by lia.
        destruct (Hhs Hobj). by apply Hother. }
      split; [done|]. split; [done|]. split; [done|].
      split; [|done].
      intros _ s' [= <-]. rewrite !Hfield by done. split; [done|]. split; [done|].
      intros Hhs. destruct (Hhead Hhs) as (Hl' & Hct & Hac).
      rewrite Hh in Hl', Hct, Hac. rewrite Hh, !Hfield by done. done.
    + assert (Hp : pRequest node options w
                   = (with_heap (h1 ++ [error_object "TypeError"
                                          "Converting circular structure to JSON"]) w1,
                      Throw (VObject (length h1)))).
      { rewrite pRequest_unfold, Ht.
        by rewrite prepare_body_unserializable. }
      subst h2 r. rewrite Hp. cbn [fst snd heap_of with_heap network].
      split; [rewrite length_app; lia|]. split; [done|]. split; [done|].
      split; [intros; by apply field_app|].
      split; [intros; apply lookup_app_l; lia|].
      split; [done|]. split; [done|]. split; [done|]. split; [done|].
      intros _ _. split; [eauto|]. intros; by apply field_app.
  - destruct (decide (typeof b = "string")) as [Hstr|Hstr].
    + pose proof (prepare_body_string requestOptions w1 Hnu Hnn Hstr) as Hprep.
      rewrite <- (with_heap_id w1) in Hprep at 2.
      destruct (pRequest_prepared options w w1 h1 requestOptions Ht Hprep)
        as (h' & Hheap & _ & Hnormal & Hthrow).
      fold r in Hheap, Hnormal, Hthrow. fold h2 in Hheap.
      assert (Hfield : forall v k, live h1 v -> field h2 v k = field h1 v k).
      { intros v k Hv. rewrite Hheap. by apply field_app. }
      split; [rewrite Hheap, length_app; lia|].
      split; [intros hd Hhd; rewrite Hfield by done; by apply Hnormal|].
      split; [done|].
      split; [intros; by apply Hfield|].
      split; [intros; rewrite Hheap; apply lookup_app_l; lia|].
      split; [intros _; by apply Hfield|].
      split; [done|]. split; [intros; by apply Hfield|]. done.
    + destruct (delete_prop_eq requestOptions "body" w1 Hnu Hnn)
        as (hp & Hdel & Hlen & Hhas & Hf & Hkeep & Hother).
      fold h1 in Hlen, Hkeep, Hother.
      assert (Hprep : prepare_body node requestOptions w1 = (with_heap hp w1, Normal tt)).
      { by rewrite prepare_body_other. }
      destruct (pRequest_prepared options w w1 hp requestOptions Ht Hprep)
        as (h' & Hheap & _ & Hnormal & Hthrow).
      fold r in Hheap, Hnormal, Hthrow. fold h2 in Hheap.
      assert (Hfield : forall v k, live h1 v -> field h2 v k = field hp v k).
      { intros v k Hv. rewrite Hheap. apply field_app.
        destruct v; simpl in *; try done; lia. }
      split; [rewrite Hheap, length_app; lia|].
      split; [intros hd Hhd; rewrite Hfield by done; by apply Hnormal|].
      split; [done|].
      split; [intros v k K1 _ _ _ Hv; rewrite Hfield by done; by apply Hkeep|].
      split.
      { intros l Hl Hne _. rewrite Hheap, lookup_app_l by lia.
        apply Hother; destruct Hro; congruence. }
      split; [done|].
      split.
      { intros _ _. rewrite Hheap, has_field_app; [done|].
        destruct Hro as [->| ->]; simpl; lia. }
      split; [intros _ v k K Hv; rewrite Hfield by done; by apply Hkeep|]. done.
Qed.

(** C9: when [options.url] is an object [t], that object is the target of
    the request and the call changes it in place.  After the call, however
    it ends: [t.url] is [t]; every property other than [body], [headers],
    [Content-Type] and [Accept] is that of [options] where [options] has
    it, and the one [t] had otherwise; a string body is on [t] as given; a
    body whose [typeof] is neither ['string'] nor ['object'] is deleted
    from [t], and everything else on [t] is as given; a body that
    [JSON.stringify] takes is replaced on [t] by its JSON text, [t.headers]
    is the headers given, a new object when there were none, and
    [Content-Type] and [Accept] are written into that very object; a body
    that [JSON.stringify] refuses makes the call throw with [t] as given.
    No object other than [t] and those headers is changed, and when the
    call returns, the request has [t] itself as its options. *)
Theorem parsed_target_is_mutated_in_place (o t : loc) (w : world) :
  let h := heap_of w in
  let target := VObject t in
  let given := extended h o t in
  let h1 := heap_of (fst (resolve_target node (VObject o) (with_deferred Pending w))) in
  let r := pRequest node (VObject o) w in
  let h2 := heap_of (fst r) in
  field h (VObject o) "url" = target -> t < length h ->
  (forall hd, snd r = Normal hd ->
     hd = DeferredPromise (length (deferreds w))
     /\ network (fst r) = network w ++ [mkRequest target (field h2 target "body")])
  /\ field h2 target "url" = target
  /\ (forall k, k <> "body" -> k <> "headers" ->
                k <> "Content-Type" -> k <> "Accept" ->
                field h2 target k = given k)
  /\ (forall l, l < length h -> l <> t ->
        (typeof (given "body") = "object" ->
         given "headers" <> VObject l /\ given "headers" <> VFunction l) ->
        h2 !! l = h !! l)
  /\ (typeof (given "body") = "string" -> field h2 target "body" = given "body")
  /\ (typeof (given "body") <> "string" -> typeof (given "body") <> "object" ->
        has_field h2 target "body" = false)
  /\ (typeof (given "body") <> "object" ->
        forall k, k <> "body" -> field h2 target k = given k)
  /\ (typeof (given "body") = "object" -> forall s,
        JSON_stringify_text node h1 (given "body") = Some s ->
        field h2 target "body" = VString s
        /\ field h2 target "headers"
           = (if truthy (given "headers") then given "headers" else VObject (length h))
        /\ (truthy (given "headers") = false \/ live h (given "headers") ->
            field h2 (field h2 target "headers") "Content-Type"
            = VString "application/json"
            /\ field h2 (field h2 target "headers") "Accept"
               = VString "application/json"))
  /\ (typeof (given "body") = "object" ->
        JSON_stringify_text node h1 (given "body") = None ->
        (exists e, snd r = Throw e) /\ forall k, field h2 target k = given k).
Proof.
  intros h target given h1 r h2 Hurl Ht.
  destruct (resolve_target_ref o t target (with_deferred Pending w) Hurl)
    as (h1' & Hrun & Hlen & Hother & Hin & Hout); [by left|done|].
  cbn [heap_of with_deferred] in Hlen, Hother, Hin, Hout.
  fold h in Hlen, Hother, Hin, Hout.
  assert (Hh1 : h1 = h1') by (subst h1; by rewrite Hrun).
  rewrite <- Hh1 in Hlen, Hother, Hin, Hout.
  assert (Hgiven : forall k, field h1 target k = given k).
  { intros k. subst given. unfold extended.
    destruct (in_dec string_dec k (keys_of h o)); [by apply Hin|by apply Hout]. }
  assert (Hw1 : heap_of (with_heap h1' (with_deferred Pending w)) = h1)
    by (by rewrite Hh1).
  destruct (pRequest_on_target (VObject o) w _ target t Hrun)
    as (_ & Hnormal & _ & Hframe & Hobjs & Hstring & Hdel & Hrest & Hjson & Hcirc);
    [by left|rewrite Hw1; lia|].
  rewrite Hw1 in Hframe, Hobjs, Hstring, Hdel, Hrest, Hjson, Hcirc.
  rewrite (Hgiven "body") in Hobjs, Hstring, Hdel, Hrest, Hjson, Hcirc.
  rewrite (Hgiven "headers") in Hobjs, Hjson.
  assert (Hlt : live h1 target) by (simpl; lia).
  subst r h2.
  split; [done|]. split.
  { rewrite Hframe by done. rewrite Hgiven. subst given. unfold extended.
    destruct (in_dec string_dec "url" (keys_of h o)) as [Hi|Hni]; [done|].
    apply field_not_key in Hni. fold h in Hni. by rewrite Hurl in Hni. }
  split; [intros k K1 K2 K3 K4; rewrite Hframe by done; apply Hgiven|].
  split.
  { intros l Hl Hne Hhs. rewrite Hobjs by (done || lia). by apply Hother. }
  split; [done|]. split; [done|].
  split; [intros Hno k Hk; rewrite Hrest by done; apply Hgiven|].
  split.
  { intros Hobj s Hs. destruct (Hjson Hobj s Hs) as (Hb & Hh & Hhead).
    rewrite Hlen in Hh. split; [done|]. split; [done|].
    intros Hhs. apply Hhead. destruct Hhs as [?|Hl]; [by left|right].
    destruct (given "headers"); simpl in *; try done; lia. }
  intros Hobj Hnone. destruct (Hcirc Hobj Hnone) as [Hthrow Hsame].
  split; [done|]. intros k. rewrite Hsame by done. apply Hgiven.
Qed.

(** C10 (as amended): when [options.url] is undefined (or absent) or null,
    and also when it is a number or a boolean and Node's [util] is
    strict-mode code, [pRequest] throws a TypeError: no promise comes back
    and nothing reaches the transport. *)
Theorem missing_url_field_throws (o : loc) (w : world) :
  let u := field (heap_of w) (VObject o) "url" in
  u = VUndefined \/ u = VNull
  \/ (strict_lib node = true /\ (typeof u = "number" \/ typeof u = "boolean")) ->
  exists w' e,
    pRequest node (VObject o) w = (w', Throw e)
    /\ field (heap_of w') e "name" = VString "TypeError"
    /\ network w' = network w.
Proof.
  intros u Hurl. rewrite pRequest_unfold.
  assert (Hns : typeof u <> "string").
  { destruct Hurl as [-> | [-> | [_ [Hu | Hu]]]]; try done; rewrite Hu; done. }
  rewrite resolve_target_object by exact Hns.
  cbn [heap_of with_deferred]. fold u.
  assert (Hname : forall h msg,
    field (h ++ [error_object "TypeError" msg]) (VObject (length h)) "name"
    = VString "TypeError") by (intros; by rewrite field_alloc).
  destruct (rev (keys_of (heap_of w) o)) as [|k ks] eqn:Hkeys.
  - assert (Hund : u = VUndefined).
    { apply field_not_key. intros Hin. apply in_rev in Hin. by rewrite Hkeys in Hin. }
    rewrite Hund. cbn [extend_loop]. unfold ret.
    do 2 eexists; split; [reflexivity|]. split; [apply Hname|done].
  - cbn [extend_loop]. unfold bind. rewrite get_prop_object.
    destruct Hurl as [-> | [-> | [Hstrict [Hu | Hu]]]];
      try (do 2 eexists; split; [reflexivity|]; split; [apply Hname|done]).
    + destruct u; try done. cbn [set_prop]. rewrite Hstrict.
      do 2 eexists; split; [reflexivity|]. split; [apply Hname|done].
    + destruct u; try done. cbn [set_prop]. rewrite Hstrict.
      do 2 eexists; split; [reflexivity|]. split; [apply Hname|done].
Qed.


(** X17: When [http.request] refuses the prepared target (Node does for a
    protocol other than [http:]), [pRequest] throws that error: no promise
    comes back and no request is made. *)
Theorem refused_target_throws options w w1 w2 requestOptions name msg :
  let e := VObject (length (heap_of w2)) in
  resolve_target node options (with_deferred Pending w)
    = (w1, Normal (Some requestOptions)) ->
  prepare_body node requestOptions w1 = (w2, Normal tt) ->
  http_request_refusal node (heap_of w2) requestOptions = Some (name, msg) ->
  exists w',
    pRequest node options w = (w', Throw e)
    /\ field (heap_of w') e "name" = VString name
    /\ field (heap_of w') e "message" = VString msg
    /\ network w' = network w.
Proof.
  intros e Ht Hb Hr.
  destruct (resolve_target_io _ _ _ _ Ht) as [_ Hn].
  destruct (prepare_body_io _ _ _ _ Hb) as [_ Hn2].
  rewrite pRequest_unfold, Ht, Hb, (send_refused _ name msg) by done.
  eexists. split; [reflexivity|]. cbn [heap_of with_heap network]. subst e.
  rewrite !field_alloc. split; [done|]. split; [done|]. congruence.
Qed.

(** C4 (the failing input): [null] has [typeof] ['object'], so [pRequest(null)]
    reads [options.url] of [null] and throws; no promise comes back. *)
Theorem pRequest_null_throws (w : world) :
  pRequest node VNull w
  = (mkWorld (heap_of w ++ [error_object "TypeError" "Cannot read property of undefined or null"])
             (deferreds w ++ [Pending]) (network w),
     Throw (VObject (length (heap_of w)))).
Proof. done. Qed.

End Request.

(** ** JSON values in the heap *)

Lemma bind_normal {A B} (m : M A) (k : A -> M B) w w' a :
  m w = (w', Normal a) -> bind m k w = k a w'.
Proof. intros H. unfold bind. by rewrite H. Qed.

Lemma bind_throw {A B} (m : M A) (k : A -> M B) w w' e :
  m w = (w', Throw e) -> bind m k w = (w', Throw e).
Proof. intros H. unfold bind. by rewrite H. Qed.

Lemma denotes_array n h items v :
  denotes n h (JArray items) v <->
  exists l vs,
    v = VObject l /\ n <= l /\
    h !! l = Some (mkObject true (index_props 0 vs)) /\
    Forall2 (denotes n h) items vs.
Proof.
  assert (Hall : forall js xs,
    (fix all (js : list json) (xs : list value) : Prop :=
       match js, xs with
       | [], [] => True
       | j' :: js', x :: xs' => denotes n h j' x /\ all js' xs'
       | _, _ => False
       end) js xs <-> Forall2 (denotes n h) js xs).
  { induction js as [|j' js IH]; intros [|x xs]; split; try done;
      try (by inversion 1).
    - intros [Hd Hr]. constructor; [done|by apply IH].
    - inversion 1; subst. split; [done|by apply IH]. }
  simpl. split; intros (l & vs & H1 & H2 & H3 & H4); exists l, vs;
    repeat split; try done; by apply Hall.
Qed.

Lemma denotes_object n h members v :
  denotes n h (JObject members) v <->
  exists l kvs,
    v = VObject l /\ n <= l /\
    h !! l = Some (plain (member_props kvs)) /\
    Forall2 (fun m kv => fst m = fst kv /\ denotes n h (snd m) (snd kv)) members kvs.
Proof.
  assert (Hall : forall ms xs,
    (fix all (ms : list (string * json)) (xs : list (string * value)) : Prop :=
       match ms, xs with
       | [], [] => True
       | (k, j') :: ms', (k', x) :: xs' => k = k' /\ denotes n h j' x /\ all ms' xs'
       | _, _ => False
       end) ms xs
    <-> Forall2 (fun m kv => fst m = fst kv /\ denotes n h (snd m) (snd kv)) ms xs).
  { induction ms as [|[k j'] ms IH]; intros [|[k' x] xs]; split; try done;
      try (by inversion 1).
    - intros (Hk & Hd & Hr). constructor; [done|by apply IH].
    - inversion 1 as [|? ? ? ? [Hk Hd] Hr]; subst. split; [done|]. split; [done|by apply IH]. }
  simpl. split; intros (l & kvs & H1 & H2 & H3 & H4); exists l, kvs;
    repeat split; try done; by apply Hall.
Qed.

(** [denotes] looks only at the objects from [n] on. *)
Lemma denotes_mono n n' h h' j :
  n' <= n ->
  (forall l ob, n <= l -> h !! l = Some ob -> h' !! l = Some ob) ->
  forall v, denotes n h j v -> denotes n' h' j v.
Proof.
  intros Hn Hh. induction j as [|b|z|s|items IH|members IH] using json_ind;
    intros v; try done.
  - rewrite !denotes_array. intros (l & vs & -> & Hl & Hob & Hall).
    exists l, vs. split; [done|]. split; [lia|]. split; [by apply Hh|].
    clear Hob. revert vs Hall. induction IH as [|j' js Hj _ IHjs]; intros vs Hall.
    + inversion Hall. constructor.
    + inversion Hall; subst. constructor; [by apply Hj|by apply IHjs].
  - rewrite !denotes_object. intros (l & kvs & -> & Hl & Hob & Hall).
    exists l, kvs. split; [done|]. split; [lia|]. split; [by apply Hh|].
    clear Hob. revert kvs Hall. induction IH as [|m ms Hm _ IHms]; intros kvs Hall.
    + inversion Hall. constructor.
    + inversion Hall as [|? ? ? ? [Hk Hd] Hr]; subst.
      constructor; [split; [done|by apply Hm]|by apply IHms].
Qed.

Lemma denotes_app n h h' j v : denotes n h j v -> denotes n (h ++ h') j v.
Proof.
  apply denotes_mono; [done|]. intros l ob _ Hl. by apply lookup_app_l_Some.
Qed.

Lemma denotes_alter n h f l j v :
  l < n -> denotes n h j v -> denotes n (alter f l h) j v.
Proof.
  intros Hl. apply denotes_mono; [done|].
  intros l' ob Hn Hob. rewrite list_lookup_alter_ne by lia. done.
Qed.

(** [JSON.parse] builds the value of the text out of new objects. *)
Lemma alloc_json_denotes j :
  forall w, exists hj v,
    alloc_json j w = (with_heap (heap_of w ++ hj) w, Normal v)
    /\ denotes (length (heap_of w)) (heap_of w ++ hj) j v.
Proof.
  induction j as [|b|z|s|items IH|members IH] using json_ind; intros w;
    try (exists []; eexists; simpl; unfold ret; rewrite app_nil_r, with_heap_id; done).
  - assert (Hel : forall w, exists hj vs,
      (fix elems (js : list json) : M (list value) :=
         match js with
         | [] => ret []
         | j' :: js' =>
             let* v := alloc_json j' in
             let* vs := elems js' in
             ret (v :: vs)
         end) items w = (with_heap (heap_of w ++ hj) w, Normal vs)
      /\ Forall2 (denotes (length (heap_of w)) (heap_of w ++ hj)) items vs).
    { clear w. induction IH as [|j' js Hj _ IHjs]; intros w.
      - exists [], []. unfold ret. rewrite app_nil_r, with_heap_id. split; [done|constructor].
      - destruct (Hj w) as (h1 & v & Hv & Hd).
        destruct (IHjs (with_heap (heap_of w ++ h1) w)) as (h2 & vs & Hvs & Hds).
        cbn [heap_of with_heap] in *.
        exists (h1 ++ h2), (v :: vs).
        rewrite (bind_normal _ _ _ _ _ Hv), (bind_normal _ _ _ _ _ Hvs). unfold ret.
        rewrite with_heap_with_heap, app_assoc. split; [done|].
        constructor.
        + by apply denotes_app.
        + eapply Forall2_impl; [exact Hds|]. intros j0 v0.
          apply denotes_mono; [rewrite length_app; lia|done]. }
    destruct (Hel w) as (hj & vs & Hvs & Hds).
    exists (hj ++ [mkObject true (index_props 0 vs)]), (VObject (length (heap_of w ++ hj))).
    cbn [alloc_json]. rewrite (bind_normal _ _ _ _ _ Hvs). unfold alloc.
    cbn [heap_of with_heap]. rewrite with_heap_with_heap, app_assoc.
    split; [done|]. apply denotes_array.
    exists (length (heap_of w ++ hj)), vs. split; [done|].
    split; [rewrite length_app; lia|]. split; [by rewrite list_lookup_middle|].
    eapply Forall2_impl; [exact Hds|]. intros j0 v0. apply denotes_app.
  - assert (Hel : forall w, exists hj kvs,
      (fix fields (ms : list (string * json)) : M (list (string * value)) :=
         match ms with
         | [] => ret []
         | (k, j') :: ms' =>
             let* v := alloc_json j' in
             let* kvs := fields ms' in
             ret ((k, v) :: kvs)
         end) members w = (with_heap (heap_of w ++ hj) w, Normal kvs)
      /\ Forall2 (fun m kv => fst m = fst kv
                   /\ denotes (length (heap_of w)) (heap_of w ++ hj) (snd m) (snd kv))
           members kvs).
    { clear w. induction IH as [|[k j'] ms Hj _ IHms]; intros w.
      - exists [], []. unfold ret. rewrite app_nil_r, with_heap_id. split; [done|constructor].
      - destruct (Hj w) as (h1 & v & Hv & Hd).
        destruct (IHms (with_heap (heap_of w ++ h1) w)) as (h2 & kvs & Hvs & Hds).
        cbn [heap_of with_heap snd] in *.
        exists (h1 ++ h2), ((k, v) :: kvs).
        rewrite (bind_normal _ _ _ _ _ Hv), (bind_normal _ _ _ _ _ Hvs). unfold ret.
        rewrite with_heap_with_heap, app_assoc. split; [done|].
        constructor.
        + split; [done|]. by apply denotes_app.
        + eapply Forall2_impl; [exact Hds|]. intros m kv [Hk Hdm]. split; [done|].
          revert Hdm. apply denotes_mono; [rewrite length_app; lia|done]. }
    destruct (Hel w) as (hj & kvs & Hvs & Hds).
    exists (hj ++ [plain (member_props kvs)]), (VObject (length (heap_of w ++ hj))).
    cbn [alloc_json]. rewrite (bind_normal _ _ _ _ _ Hvs). unfold alloc.
    cbn [heap_of with_heap]. rewrite with_heap_with_heap, app_assoc.
    split; [done|]. apply denotes_object.
    exists (length (heap_of w ++ hj)), kvs. split; [done|].
    split; [rewrite length_app; lia|]. split; [by rewrite list_lookup_middle|].
    eapply Forall2_impl; [exact Hds|]. intros m kv [Hk Hdm]. split; [done|].
    by apply denotes_app.
Qed.

(** ** The handlers *)

Section Exchange.

Variable node : runtime.

(** The deferred of the call whose exchange is followed. *)
Variable d : nat.

(** The ['end'] handler on a JSON response whose text parses. *)
Lemma on_end_parsed w r hl ct buf j :
  let H := heap_of w in
  r < length H ->
  field H (VObject r) "headers" = VObject hl ->
  field H (VObject hl) "content-type" = VString ct ->
  substring 0 16 ct = "application/json" ->
  JSON_parse_text node buf = inl j ->
  exists h' v,
    on_end node d (VObject r) buf w
    = (mkWorld (h' ++ [plain [("statusCode", field H (VObject r) "statusCode");
                              ("headers", VObject hl);
                              ("body", v)]])
               (alter (resolve (VObject (length h'))) d (deferreds w)) (network w),
       Normal tt)
    /\ denotes 0 h' j v
    /\ length H <= length h'
    /\ (forall l ob, l <> r -> H !! l = Some ob -> h' !! l = Some ob).
Proof.
  intros H Hr Hhs Hct Hpre Hparse.
  unfold on_end, bind.
  rewrite (set_prop_ref _ _ r) by (by left).
  rewrite get_prop_object. cbn [heap_of with_heap]. fold H.
  rewrite field_store_key_ne by done. rewrite Hhs.
  rewrite get_prop_object. cbn [heap_of with_heap].
  rewrite field_store_key_ne by done. rewrite Hct.
  cbn [slice_0_16]. unfold ret at 1. rewrite Hpre.
  change (strict_eq_string (VString "application/json") "application/json") with true.
  cbv beta iota.
  unfold try_catch, bind, JSON_parse. rewrite Hparse.
  set (w1 := with_heap (alter (obj_store "body" (VString buf)) r H) w).
  destruct (alloc_json_denotes j w1) as (hj & v & Hal & Hden).
  rewrite Hal. subst w1. cbn [heap_of with_heap] in *.
  rewrite (set_prop_ref _ _ r) by (by left). cbn [heap_of with_heap].
  rewrite !get_prop_object. cbn [heap_of with_heap].
  unfold alloc, deferred_resolve. cbn [heap_of with_heap deferreds network settle with_deferred].
  set (h1 := alter (obj_store "body" (VString buf)) r H) in *.
  assert (Hr1 : r < length (h1 ++ hj)).
  { subst h1. rewrite length_app, length_alter. lia. }
  rewrite field_store_eq by done.
  rewrite !field_store_key_ne by done.
  assert (Hlive : forall k, field (h1 ++ hj) (VObject r) k = field h1 (VObject r) k).
  { intros k. apply field_app. subst h1. simpl. by rewrite length_alter. }
  rewrite !Hlive. subst h1. rewrite !field_store_key_ne by done. rewrite Hhs.
  unfold settle, with_heap. cbn [heap_of deferreds network].
  eexists _, v. split; [reflexivity|].
  split; [|split].
  - rewrite length_alter in Hden. revert Hden.
    apply denotes_mono; [lia|].
    intros l ob Hl Hob. rewrite list_lookup_alter_ne by lia. done.
  - rewrite length_alter, length_app, length_alter. lia.
  - intros l ob Hl Hob. rewrite list_lookup_alter_ne by done.
    apply lookup_app_l_Some. by rewrite list_lookup_alter_ne.
Qed.

(** The ['end'] handler on a JSON response whose text does not parse: the
    SyntaxError gets the response attached and rejects the deferred; the
    [resolve] that follows finds it settled. *)
Lemma on_end_syntax_error w r hl ct buf msg :
  let H := heap_of w in
  r < length H ->
  field H (VObject r) "headers" = VObject hl ->
  field H (VObject hl) "content-type" = VString ct ->
  substring 0 16 ct = "application/json" ->
  JSON_parse_text node buf = inr msg ->
  on_end node d (VObject r) buf w
  = (mkWorld
       ((alter (obj_store "body" (VString buf)) r H
           ++ [obj_store "response" (VObject r) (error_object "SyntaxError" msg)])
          ++ [plain [("statusCode", field H (VObject r) "statusCode");
                     ("headers", VObject hl);
                     ("body", VString buf)]])
       (alter (resolve (VObject (S (length H)))) d
          (alter (reject (VObject (length H))) d (deferreds w)))
       (network w),
     Normal tt).
Proof.
  intros H Hr Hhs Hct Hpre Hparse.
  unfold on_end, bind.
  rewrite (set_prop_ref _ _ r) by (by left).
  rewrite get_prop_object. cbn [heap_of with_heap]. fold H.
  rewrite field_store_key_ne by done. rewrite Hhs.
  rewrite get_prop_object. cbn [heap_of with_heap].
  rewrite field_store_key_ne by done. rewrite Hct.
  cbn [slice_0_16]. unfold ret at 1. rewrite Hpre.
  change (strict_eq_string (VString "application/json") "application/json") with true.
  cbv beta iota.
  unfold try_catch, bind, JSON_parse. rewrite Hparse.
  unfold throw_error, bind, alloc, throw. cbn [heap_of with_heap].
  rewrite (set_prop_ref _ _ (length (alter (obj_store "body" (VString buf)) r H)))
    by (by left).
  cbn [heap_of with_heap]. rewrite alter_fresh.
  unfold deferred_reject. rewrite !get_prop_object.
  unfold deferred_resolve, settle, with_heap.
  cbn [heap_of deferreds network].
  set (h1 := alter (obj_store "body" (VString buf)) r H).
  assert (Hlive : forall k ob, field (h1 ++ [ob]) (VObject r) k = field h1 (VObject r) k).
  { intros k ob. apply field_app. subst h1. simpl. by rewrite length_alter. }
  rewrite !Hlive. subst h1. rewrite !field_store_key_ne by done.
  rewrite field_store_eq by done. rewrite Hhs.
  rewrite length_app, !length_alter. simpl length.
  by replace (length H + 1) with (S (length H)) by lia.
Qed.

(** The ['end'] handler on a response without [content-type]: [slice] is
    called on [undefined], and the TypeError leaves the handler. *)
Lemma on_end_no_content_type w r hl buf :
  let H := heap_of w in
  field H (VObject r) "headers" = VObject hl ->
  field H (VObject hl) "content-type" = VUndefined ->
  on_end node d (VObject r) buf w
  = (with_heap
       (alter (obj_store "body" (VString buf)) r H
          ++ [error_object "TypeError" "Cannot call method 'slice' of undefined"]) w,
     Throw (VObject (length H))).
Proof.
  intros H Hhs Hct.
  unfold on_end, bind.
  rewrite (set_prop_ref _ _ r) by (by left).
  rewrite get_prop_object. cbn [heap_of with_heap]. fold H.
  rewrite field_store_key_ne by done. rewrite Hhs.
  rewrite get_prop_object. cbn [heap_of with_heap].
  rewrite field_store_key_ne by done. rewrite Hct.
  cbn [slice_0_16]. unfold throw_error, bind, alloc, throw.
  cbn [heap_of with_heap]. by rewrite length_alter.
Qed.

(** *** Runs *)

Lemma run_app x evs1 evs2 : run node d x (evs1 ++ evs2) = run node d (run node d x evs1) evs2.
Proof. apply fold_left_app. Qed.

Lemma run_data w response buf u chunks :
  run node d (mkExchange w (Some (response, buf)) u) (map EvData chunks)
  = mkExchange w (Some (response, fold_left on_data chunks buf)) u.
Proof.
  revert buf. induction chunks as [|c cs IH]; intros buf; [done|].
  simpl. apply IH.
Qed.

Lemma run_cons x ev evs : run node d x (ev :: evs) = run node d (step node d x ev) evs.
Proof. done. Qed.

Lemma step_response x statusCode headers :
  let h := heap_of (ex_world x) in
  step node d x (EvResponse statusCode headers)
  = mkExchange
      (with_heap ((h ++ [plain headers])
                    ++ [plain [("statusCode", VNumber statusCode);
                               ("headers", VObject (length h))]]) (ex_world x))
      (Some (VObject (S (length h)), "")) (ex_uncaught x).
Proof.
  intros h. unfold step, incoming_message, bind, alloc.
  cbn [heap_of with_heap]. rewrite with_heap_with_heap.
  rewrite length_app. simpl length.
  by replace (length (heap_of (ex_world x)) + 1) with (S (length h)) by (subst h; lia).
Qed.

(** The exchange when the whole body of a response has arrived. *)
Lemma run_response_data w statusCode headers chunks :
  let h := heap_of w in
  run node d (started w) (EvResponse statusCode headers :: map EvData chunks)
  = mkExchange
      (with_heap ((h ++ [plain headers])
                    ++ [plain [("statusCode", VNumber statusCode);
                               ("headers", VObject (length h))]]) w)
      (Some (VObject (S (length h)), accumulate chunks)) [].
Proof.
  intros h. rewrite run_cons, step_response. unfold started.
  cbn [ex_world ex_uncaught]. by rewrite run_data.
Qed.

(** The response object and its headers, as Node built them. *)
Lemma response_fields (h : list object) statusCode headers k :
  let h1 := (h ++ [plain headers])
              ++ [plain [("statusCode", VNumber statusCode);
                         ("headers", VObject (length h))]] in
  S (length h) < length h1
  /\ field h1 (VObject (S (length h))) "statusCode" = VNumber statusCode
  /\ field h1 (VObject (S (length h))) "headers" = VObject (length h)
  /\ field h1 (VObject (length h)) k = default VUndefined (lookup_prop k headers)
  /\ h1 !! length h = Some (plain headers).
Proof.
  intros h1. subst h1.
  assert (Hl : S (length h) = length (h ++ [plain headers])).
  { rewrite length_app. simpl. lia. }
  split; [rewrite !length_app; simpl; lia|].
  split; [rewrite Hl; by rewrite field_alloc|].
  split; [rewrite Hl; by rewrite field_alloc|].
  split.
  - rewrite field_app by (simpl; rewrite length_app; simpl; lia).
    by rewrite field_alloc.
  - apply lookup_app_l_Some. by rewrite list_lookup_middle.
Qed.

(** C1: a response whose [content-type] starts with [application/json] and
    whose accumulated text is valid JSON resolves the promise with a record
    of the response's [statusCode], its [headers] object, and as [body] the
    parsed value of the text. *)
Theorem json_response_resolves_with_parsed_body w statusCode headers chunks ct j :
  let x := run node d (started w)
             (EvResponse statusCode headers :: map EvData chunks ++ [EvEnd]) in
  let h := heap_of (ex_world x) in
  deferreds w !! d = Some Pending ->
  lookup_prop "content-type" headers = Some (VString ct) ->
  substring 0 16 ct = "application/json" ->
  JSON_parse_text node (accumulate chunks) = inl j ->
  exists result hs body,
    deferreds (ex_world x) !! d = Some (Fulfilled result)
    /\ ex_uncaught x = []
    /\ field h result "statusCode" = VNumber statusCode
    /\ field h result "headers" = VObject hs
    /\ h !! hs = Some (plain headers)
    /\ field h result "body" = body
    /\ denotes 0 h j body.
Proof.
  intros x h Hpend Hct Hpre Hparse. subst h x.
  rewrite app_comm_cons, run_app, run_response_data.
  set (h0 := heap_of w).
  destruct (response_fields h0 statusCode headers "content-type")
    as (Hr & Hsc & Hhs & Hc & Hhl).
  rewrite Hct in Hc. simpl in Hc.
  set (h1 := (h0 ++ [plain headers])
               ++ [plain [("statusCode", VNumber statusCode);
                          ("headers", VObject (length h0))]]) in *.
  destruct (on_end_parsed (with_heap h1 w) (S (length h0)) (length h0) ct
              (accumulate chunks) j Hr Hhs Hc Hpre Hparse)
    as (h' & v & Hend & Hden & Hlen & Hframe).
  cbn [heap_of with_heap deferreds network] in Hend, Hlen, Hframe.
  unfold run. cbn [fold_left]. unfold step. cbn [ex_response].
  unfold deliver. cbn [ex_world ex_response ex_uncaught]. rewrite Hend.
  cbn [ex_world ex_uncaught heap_of deferreds with_heap].
  rewrite list_lookup_alter_eq, Hpend, Hsc.
  exists (VObject (length h')), (length h0), v.
  rewrite !field_alloc. cbn [props plain lookup_prop].
  repeat split; try done.
  - apply lookup_app_l_Some. apply Hframe; [lia|done].
  - by apply denotes_app.
Qed.

(** C2: a response whose [content-type] starts with [application/json] and
    whose accumulated text is not JSON rejects the promise with the
    SyntaxError of [JSON.parse]; that error refers, under [response], to
    the response object with its [statusCode], its [headers] and the raw
    text as [body]; the promise is not fulfilled and nothing is left
    uncaught. *)
Theorem malformed_json_response_rejects w statusCode headers chunks ct msg :
  let x := run node d (started w)
             (EvResponse statusCode headers :: map EvData chunks ++ [EvEnd]) in
  let h := heap_of (ex_world x) in
  deferreds w !! d = Some Pending ->
  lookup_prop "content-type" headers = Some (VString ct) ->
  substring 0 16 ct = "application/json" ->
  JSON_parse_text node (accumulate chunks) = inr msg ->
  exists e response hs,
    deferreds (ex_world x) !! d = Some (Rejected e)
    /\ (forall v, deferreds (ex_world x) !! d <> Some (Fulfilled v))
    /\ ex_uncaught x = []
    /\ field h e "name" = VString "SyntaxError"
    /\ field h e "message" = VString msg
    /\ field h e "response" = response
    /\ field h response "statusCode" = VNumber statusCode
    /\ field h response "headers" = VObject hs
    /\ h !! hs = Some (plain headers)
    /\ field h response "body" = VString (accumulate chunks).
Proof.
  intros x h Hpend Hct Hpre Hparse. subst h x.
  rewrite app_comm_cons, run_app, run_response_data.
  set (h0 := heap_of w).
  destruct (response_fields h0 statusCode headers "content-type")
    as (Hr & Hsc & Hhs & Hc & Hhl).
  rewrite Hct in Hc. simpl in Hc.
  set (h1 := (h0 ++ [plain headers])
               ++ [plain [("statusCode", VNumber statusCode);
                          ("headers", VObject (length h0))]]) in *.
  pose proof (on_end_syntax_error (with_heap h1 w) (S (length h0)) (length h0) ct
                (accumulate chunks) msg Hr Hhs Hc Hpre Hparse) as Hend.
  cbn [heap_of with_heap deferreds network] in Hend. rewrite Hsc in Hend.
  unfold run. cbn [fold_left]. unfold step. cbn [ex_response].
  unfold deliver. cbn [ex_world ex_response ex_uncaught]. rewrite Hend.
  cbn [ex_world ex_uncaught heap_of deferreds with_heap].
  rewrite !list_lookup_alter_eq, Hpend. cbn [reject resolve fmap option_fmap option_map].
  set (buf := accumulate chunks).
  set (h2 := alter (obj_store "body" (VString buf)) (S (length h0)) h1).
  assert (Hlen2 : length h2 = length h1) by (subst h2; by rewrite length_alter).
  assert (Hresp : forall k,
    field ((h2 ++ [obj_store "response" (VObject (S (length h0)))
                     (error_object "SyntaxError" msg)])
             ++ [plain [("statusCode", VNumber statusCode);
                        ("headers", VObject (length h0));
                        ("body", VString buf)]]) (VObject (S (length h0))) k
    = field h2 (VObject (S (length h0))) k).
  { intros k. rewrite <- app_assoc. apply field_app. simpl. lia. }
  assert (Herr : forall k,
    field ((h2 ++ [obj_store "response" (VObject (S (length h0)))
                     (error_object "SyntaxError" msg)])
             ++ [plain [("statusCode", VNumber statusCode);
                        ("headers", VObject (length h0));
                        ("body", VString buf)]]) (VObject (length h1)) k
    = default VUndefined
        (lookup_prop k (props (obj_store "response" (VObject (S (length h0)))
                                 (error_object "SyntaxError" msg))))).
  { intros k. rewrite <- Hlen2.
    rewrite field_app by (simpl; rewrite length_app; simpl; lia).
    by rewrite field_alloc. }
  exists (VObject (length h1)), (VObject (S (length h0))), (length h0).
  split; [done|]. split; [done|]. split; [done|].
  rewrite !Herr, !Hresp. subst h2.
  rewrite field_store_eq by done. rewrite !field_store_key_ne by done.
  split; [done|]. split; [done|]. split; [done|].
  split; [done|]. split; [done|]. split; [|done].
  rewrite <- app_assoc. apply lookup_app_l_Some.
  rewrite list_lookup_alter_ne by lia. done.
Qed.

(** A response without [content-type]: the ['end'] handler throws a
    TypeError that nothing catches, and no deferred is settled. *)
Lemma end_without_content_type w statusCode chunks :
  let x := run node d (started w)
             (EvResponse statusCode [] :: map EvData chunks ++ [EvEnd]) in
  let e := VObject (S (S (length (heap_of w)))) in
  deferreds (ex_world x) = deferreds w
  /\ ex_uncaught x = [e]
  /\ field (heap_of (ex_world x)) e "name" = VString "TypeError".
Proof.
  intros x e. subst x e.
  rewrite app_comm_cons, run_app, run_response_data.
  set (h0 := heap_of w).
  destruct (response_fields h0 statusCode [] "content-type")
    as (Hr & Hsc & Hhs & Hc & Hhl).
  simpl in Hc.
  set (h1 := (h0 ++ [plain []])
               ++ [plain [("statusCode", VNumber statusCode);
                          ("headers", VObject (length h0))]]) in *.
  pose proof (on_end_no_content_type (with_heap h1 w) (S (length h0))
                (length h0) (accumulate chunks) Hhs Hc) as Hend.
  cbn [heap_of with_heap] in Hend.
  unfold run. cbn [fold_left]. unfold step. cbn [ex_response].
  unfold deliver. cbn [ex_world ex_response ex_uncaught]. rewrite Hend.
  cbn [ex_world ex_uncaught heap_of deferreds with_heap app].
  assert (Hlen : length h1 = S (S (length h0))).
  { subst h1. rewrite !length_app. simpl. lia. }
  split; [done|]. split; [by rewrite Hlen|].
  rewrite <- Hlen.
  rewrite <- (length_alter (obj_store "body" (VString (accumulate chunks)))
                h1 (S (length h0))).
  by rewrite field_alloc.
Qed.

(** *** A settled promise stays as it is *)

Lemma heap_only_alloc_json j : heap_only (alloc_json j).
Proof.
  intros w. destruct (alloc_json_denotes j w) as (hj & v & -> & _). done.
Qed.

Lemma heap_only_JSON_parse text : heap_only (JSON_parse node text).
Proof.
  unfold JSON_parse. destruct (JSON_parse_text node text);
    auto using heap_only_alloc_json with heap_only.
Qed.

Lemma heap_only_slice v : heap_only (slice_0_16 v).
Proof.
  destruct v as [| | | | |l|l]; try done. intros w. simpl.
  destruct (heap_of w !! l) as [ob|]; [destruct (is_array ob)|]; done.
Qed.

Lemma keeps_settled_heap_only {A} (m : M A) : heap_only m -> keeps_settled m.
Proof. intros Hm w d' p Hp _. destruct (Hm w) as [-> _]. done. Qed.

Lemma keeps_settled_bind {A B} (m : M A) (k : A -> M B) :
  keeps_settled m -> (forall a, keeps_settled (k a)) -> keeps_settled (bind m k).
Proof.
  intros Hm Hk w d' p Hp Hs. unfold bind. specialize (Hm w d' p Hp Hs).
  destruct (m w) as [w' [a|e]]; simpl in *; [|done].
  by apply Hk.
Qed.

Lemma keeps_settled_try_catch {A} (m : M A) (handler : value -> M A) :
  keeps_settled m -> (forall e, keeps_settled (handler e)) ->
  keeps_settled (try_catch m handler).
Proof.
  intros Hm Hk w d' p Hp Hs. unfold try_catch. specialize (Hm w d' p Hp Hs).
  destruct (m w) as [w' [a|e]]; simpl in *; [done|].
  by apply Hk.
Qed.

Lemma keeps_settled_settle (f : promise -> promise) :
  (forall p, p <> Pending -> f p = p) ->
  keeps_settled (fun w => (settle f d w, Normal tt)).
Proof.
  intros Hf w d' p Hp Hs. cbn [fst settle deferreds].
  destruct (decide (d = d')) as [<-|Hne].
  - rewrite list_lookup_alter_eq, Hp. simpl. by rewrite Hf.
  - by rewrite list_lookup_alter_ne.
Qed.

Lemma keeps_settled_resolve v : keeps_settled (deferred_resolve d v).
Proof. apply keeps_settled_settle. by intros []. Qed.

Lemma keeps_settled_reject e : keeps_settled (deferred_reject d e).
Proof. apply keeps_settled_settle. by intros []. Qed.

Lemma keeps_settled_on_end response buf : keeps_settled (on_end node d response buf).
Proof.
  unfold on_end.
  repeat first
    [ apply keeps_settled_resolve
    | apply keeps_settled_reject
    | apply keeps_settled_bind; [|intros ?]
    | apply keeps_settled_try_catch; [|intros ?]
    | match goal with |- keeps_settled (if ?b then _ else _) => destruct b end
    | apply keeps_settled_heap_only;
      first [ apply heap_only_JSON_parse | apply heap_only_slice
            | solve [auto with heap_only] ] ].
Qed.

Lemma deliver_keeps_settled (m : M unit) x d' p :
  keeps_settled m -> deferreds (ex_world x) !! d' = Some p -> p <> Pending ->
  deferreds (ex_world (deliver m x)) !! d' = Some p.
Proof.
  intros Hm Hx Hp. unfold deliver. specialize (Hm (ex_world x) d' p Hx Hp).
  by destruct (m (ex_world x)) as [w' [a|e]].
Qed.

(** Once a promise is settled, no event changes it. *)
Lemma step_keeps_settled x ev d' p :
  deferreds (ex_world x) !! d' = Some p -> p <> Pending ->
  deferreds (ex_world (step node d x ev)) !! d' = Some p.
Proof.
  intros Hx Hp. destruct ev as [err|sc hs|chunk| |];
    [|by rewrite step_response|..]; cbn [step].
  - apply deliver_keeps_settled; [apply keeps_settled_reject|done..].
  - by destruct (ex_response x) as [[r buf]|].
  - destruct (ex_response x) as [[r buf]|]; [|done].
    apply deliver_keeps_settled; [apply keeps_settled_on_end|done..].
  - destruct (ex_response x) as [[r buf]|]; [|done].
    apply deliver_keeps_settled; [|done..].
    unfold on_close. apply keeps_settled_bind; [|intros ?].
    + apply keeps_settled_heap_only. auto with heap_only.
    + apply keeps_settled_reject.
Qed.

Lemma run_keeps_settled evs x d' p :
  deferreds (ex_world x) !! d' = Some p -> p <> Pending ->
  deferreds (ex_world (run node d x evs)) !! d' = Some p.
Proof.
  revert x. induction evs as [|ev evs IH]; intros x Hx Hp; [done|].
  rewrite run_cons. apply IH; [|done]. by apply step_keeps_settled.
Qed.

(** C7: when ['close'] comes after the response and any amount of data but
    before ['end'], the promise is rejected with a new Error whose message
    is [Connection closed.]; the error carries nothing of the buffer, and
    whatever is emitted afterwards, ['end'] included, leaves the promise
    rejected with that error. *)
Theorem close_before_end_rejects w statusCode headers chunks rest :
  let closed := EvResponse statusCode headers :: map EvData chunks ++ [EvClose] in
  let x := run node d (started w) closed in
  let e := S (S (length (heap_of w))) in
  deferreds w !! d = Some Pending ->
  deferreds (ex_world x) !! d = Some (Rejected (VObject e))
  /\ heap_of (ex_world x) !! e = Some (error_object "Error" "Connection closed.")
  /\ ex_uncaught x = []
  /\ deferreds (ex_world (run node d (started w) (closed ++ rest))) !! d
     = Some (Rejected (VObject e)).
Proof.
  intros closed x e Hpend.
  assert (Hx : deferreds (ex_world x) !! d = Some (Rejected (VObject e))
               /\ heap_of (ex_world x) !! e
                  = Some (error_object "Error" "Connection closed.")
               /\ ex_uncaught x = []).
  { subst x closed. rewrite app_comm_cons, run_app, run_response_data.
    unfold run. cbn [fold_left step ex_response].
    unfold deliver, on_close, bind, alloc, deferred_reject.
    cbn [ex_world ex_uncaught heap_of with_heap deferreds settle].
    rewrite list_lookup_alter_eq, Hpend. cbn [reject fmap option_fmap option_map].
    assert (Hlen : length ((heap_of w ++ [plain headers])
                             ++ [plain [("statusCode", VNumber statusCode);
                                        ("headers", VObject (length (heap_of w)))]])
                   = e).
    { subst e. rewrite !length_app. simpl. lia. }
    rewrite Hlen. split; [done|]. split; [|done].
    rewrite <- Hlen. by rewrite list_lookup_middle. }
  destruct Hx as (Hd & Hh & Hu). split; [done|]. split; [done|]. split; [done|].
  rewrite run_app. fold x. by apply run_keeps_settled.
Qed.

End Exchange.

(** C3 (the failing input): when the response has no [content-type] header
    the ['end'] handler throws a TypeError that nothing catches, and the
    promise stays pending. *)
Theorem response_without_content_type_leaves_promise_pending
    (node : runtime) (h0 : list object) statusCode chunks :
  let x := run node 0 (started (called h0))
             (EvResponse statusCode [] :: map EvData chunks ++ [EvEnd]) in
  deferreds (ex_world x) !! 0 = Some Pending
  /\ ex_uncaught x = [VObject (S (S (length h0)))]
  /\ field (heap_of (ex_world x)) (VObject (S (S (length h0)))) "name"
     = VString "TypeError".
Proof.
  intros x.
  destruct (end_without_content_type node 0 (called h0) statusCode chunks)
    as (Hd & Hu & Hn).
  subst x. by rewrite Hd.
Qed.


(** ** The statements at sample inputs *)

Lemma json_response_resolves_with_parsed_body_witness :
  (deferreds (called []) !! 0 = Some Pending
   /\ lookup_prop "content-type" Sample.json_headers
      = Some (VString "application/json; charset=utf-8")
   /\ substring 0 16 "application/json; charset=utf-8" = "application/json"
   /\ JSON_parse_text Reference.node (accumulate Sample.json_chunks)
      = inl (JObject [("a", JNumber 1)]))
  /\ exists result hs body,
       deferreds (ex_world Sample.json_exchange) !! 0 = Some (Fulfilled result)
       /\ ex_uncaught Sample.json_exchange = []
       /\ field (heap_of (ex_world Sample.json_exchange)) result "statusCode" = VNumber 200
       /\ field (heap_of (ex_world Sample.json_exchange)) result "headers" = VObject hs
       /\ heap_of (ex_world Sample.json_exchange) !! hs = Some (plain Sample.json_headers)
       /\ field (heap_of (ex_world Sample.json_exchange)) result "body" = body
       /\ denotes 0 (heap_of (ex_world Sample.json_exchange))
            (JObject [("a", JNumber 1)]) body.
Proof.
  split; [repeat split; reflexivity|].
  apply (json_response_resolves_with_parsed_body Reference.node 0 (called []) 200
           Sample.json_headers Sample.json_chunks
           "application/json; charset=utf-8" (JObject [("a", JNumber 1)]));
    reflexivity.
Defined.

Lemma malformed_json_response_rejects_witness :
  (deferreds (called []) !! 0 = Some Pending
   /\ lookup_prop "content-type" Sample.json_headers
      = Some (VString "application/json; charset=utf-8")
   /\ substring 0 16 "application/json; charset=utf-8" = "application/json"
   /\ JSON_parse_text Reference.node (accumulate Sample.bad_chunks)
      = inr "Unexpected token")
  /\ exists e response hs,
       deferreds (ex_world Sample.bad_exchange) !! 0 = Some (Rejected e)
       /\ (forall v, deferreds (ex_world Sample.bad_exchange) !! 0 <> Some (Fulfilled v))
       /\ ex_uncaught Sample.bad_exchange = []
       /\ field (heap_of (ex_world Sample.bad_exchange)) e "name" = VString "SyntaxError"
       /\ field (heap_of (ex_world Sample.bad_exchange)) e "message"
          = VString "Unexpected token"
       /\ field (heap_of (ex_world Sample.bad_exchange)) e "response" = response
       /\ field (heap_of (ex_world Sample.bad_exchange)) response "statusCode" = VNumber 200
       /\ field (heap_of (ex_world Sample.bad_exchange)) response "headers" = VObject hs
       /\ heap_of (ex_world Sample.bad_exchange) !! hs = Some (plain Sample.json_headers)
       /\ field (heap_of (ex_world Sample.bad_exchange)) response "body"
          = VString (accumulate Sample.bad_chunks).
Proof.
  split; [repeat split; reflexivity|].
  apply (malformed_json_response_rejects Reference.node 0 (called []) 200
           Sample.json_headers Sample.bad_chunks
           "application/json; charset=utf-8" "Unexpected token");
    reflexivity.
Defined.

Lemma body_of_other_type_is_dropped_witness :
  (resolve_target Reference.node (VObject 0)
     (with_deferred Pending (caller Sample.number_body_heap))
   = (Sample.resolved Sample.number_body_heap, Normal (Some (VObject 1)))
   /\ VObject 1 <> VUndefined /\ VObject 1 <> VNull
   /\ typeof (field (heap_of (Sample.resolved Sample.number_body_heap)) (VObject 1) "body")
      <> "object"
   /\ typeof (field (heap_of (Sample.resolved Sample.number_body_heap)) (VObject 1) "body")
      <> "string"
   /\ accepted Reference.node (VObject 1) (Sample.resolved Sample.number_body_heap))
  /\ exists w2,
       pRequest Reference.node (VObject 0) (caller Sample.number_body_heap)
       = (w2, Normal (DeferredPromise 0))
       /\ has_field (heap_of w2) (VObject 1) "body" = false
       /\ network w2
          = network (caller Sample.number_body_heap) ++ [mkRequest (VObject 1) VUndefined].
Proof.
  assert (Hobj : typeof (field (heap_of (Sample.resolved Sample.number_body_heap))
                           (VObject 1) "body") <> "object")
    by (vm_compute; discriminate).
  assert (Hstr : typeof (field (heap_of (Sample.resolved Sample.number_body_heap))
                           (VObject 1) "body") <> "string")
    by (vm_compute; discriminate).
  assert (Hacc : accepted Reference.node (VObject 1)
                   (Sample.resolved Sample.number_body_heap))
    by (vm_compute; reflexivity).
  split; [repeat split; try reflexivity; try discriminate; assumption|].
  apply (body_of_other_type_is_dropped Reference.node (VObject 0)
           (caller Sample.number_body_heap)
           (Sample.resolved Sample.number_body_heap) (VObject 1));
    try reflexivity; try discriminate; assumption.
Defined.

Lemma structured_body_is_sent_as_json_witness :
  (resolve_target Reference.node (VObject 0)
     (with_deferred Pending (caller Sample.post_heap))
   = (Sample.resolved Sample.post_heap, Normal (Some (VObject 2)))
   /\ field (heap_of (Sample.resolved Sample.post_heap)) (VObject 2) "body" = VObject 1
   /\ JSON_stringify_text Reference.node (heap_of (Sample.resolved Sample.post_heap))
        (VObject 1) = Some Sample.json_text
   /\ (truthy (field (heap_of (Sample.resolved Sample.post_heap)) (VObject 2) "headers")
       = false
       \/ live (heap_of (Sample.resolved Sample.post_heap))
            (field (heap_of (Sample.resolved Sample.post_heap)) (VObject 2) "headers"))
   /\ accepted Reference.node (VObject 2) (Sample.resolved Sample.post_heap))
  /\ exists w2 rq,
       pRequest Reference.node (VObject 0) (caller Sample.post_heap)
       = (w2, Normal (DeferredPromise 0))
       /\ network w2 = network (caller Sample.post_heap) ++ [rq]
       /\ req_options rq = VObject 2
       /\ req_payload rq = VString Sample.json_text
       /\ field (heap_of w2) (VObject 2) "body" = VString Sample.json_text
       /\ request_header (heap_of w2) rq "Content-Type" = VString "application/json"
       /\ request_header (heap_of w2) rq "Accept" = VString "application/json"
       /\ field (heap_of w2) (VObject 2) "headers"
          = (if truthy (field (heap_of (Sample.resolved Sample.post_heap))
                          (VObject 2) "headers")
             then field (heap_of (Sample.resolved Sample.post_heap)) (VObject 2) "headers"
             else VObject (length (heap_of (Sample.resolved Sample.post_heap))))
       /\ length (heap_of (Sample.resolved Sample.post_heap)) <= length (heap_of w2).
Proof.
  assert (Hacc : accepted Reference.node (VObject 2) (Sample.resolved Sample.post_heap))
    by (vm_compute; reflexivity).
  split; [repeat split; try reflexivity; try assumption; left; reflexivity|].
  apply (structured_body_is_sent_as_json Reference.node (VObject 0)
           (caller Sample.post_heap) (Sample.resolved Sample.post_heap)
           (VObject 2) 1 Sample.json_text);
    try reflexivity; try assumption. left; reflexivity.
Defined.

Lemma close_before_end_rejects_witness :
  deferreds (called []) !! 0 = Some Pending
  /\ (deferreds (ex_world (run Reference.node 0 (started (called [])) Sample.cut_off)) !! 0
      = Some (Rejected (VObject 2))
      /\ heap_of (ex_world (run Reference.node 0 (started (called [])) Sample.cut_off)) !! 2
         = Some (error_object "Error" "Connection closed.")
      /\ ex_uncaught (run Reference.node 0 (started (called [])) Sample.cut_off) = []
      /\ deferreds (ex_world (run Reference.node 0 (started (called []))
                               (Sample.cut_off ++ [EvEnd; EvError VNull]))) !! 0
         = Some (Rejected (VObject 2))).
Proof.
  split; [reflexivity|].
  apply (close_before_end_rejects Reference.node 0 (called []) 200 Sample.json_headers
           Sample.json_chunks [EvEnd; EvError VNull]).
  reflexivity.
Defined.


Lemma missing_url_field_throws_witness :
  ((field (heap_of (caller Sample.no_url_heap)) (VObject 0) "url" = VUndefined
    \/ field (heap_of (caller Sample.no_url_heap)) (VObject 0) "url" = VNull
    \/ (strict_lib Reference.node = true
        /\ (typeof (field (heap_of (caller Sample.no_url_heap)) (VObject 0) "url")
            = "number"
            \/ typeof (field (heap_of (caller Sample.no_url_heap)) (VObject 0) "url")
               = "boolean")))
   /\ exists w' e,
        pRequest Reference.node (VObject 0) (caller Sample.no_url_heap) = (w', Throw e)
        /\ field (heap_of w') e "name" = VString "TypeError"
        /\ network w' = network (caller Sample.no_url_heap))
  /\ ((field (heap_of (caller Sample.number_url_heap)) (VObject 0) "url" = VUndefined
       \/ field (heap_of (caller Sample.number_url_heap)) (VObject 0) "url" = VNull
       \/ (strict_lib Reference.strict_node = true
           /\ (typeof (field (heap_of (caller Sample.number_url_heap)) (VObject 0) "url")
               = "number"
               \/ typeof (field (heap_of (caller Sample.number_url_heap)) (VObject 0)
                            "url")
                  = "boolean")))
      /\ exists w' e,
           pRequest Reference.strict_node (VObject 0) (caller Sample.number_url_heap)
           = (w', Throw e)
           /\ field (heap_of w') e "name" = VString "TypeError"
           /\ network w' = network (caller Sample.number_url_heap)).
Proof.
  split.
  - split; [left; reflexivity|].
    apply (missing_url_field_throws Reference.node 0 (caller Sample.no_url_heap)).
    left; reflexivity.
  - split; [right; right; split; [reflexivity|left; reflexivity]|].
    apply (missing_url_field_throws Reference.strict_node 0
             (caller Sample.number_url_heap)).
    right; right; split; [reflexivity|left; reflexivity].
Defined.

Lemma parsed_target_is_mutated_in_place_witness :
  ((field Sample.target_heap (VObject 0) "url" = VObject 1
    /\ 1 < length Sample.target_heap)
   /\ snd (Sample.put Reference.node) = Normal (DeferredPromise 0)
   /\ network (fst (Sample.put Reference.node))
      = [mkRequest (VObject 1) (VString Sample.json_text)]
   /\ field (heap_of (fst (Sample.put Reference.node))) (VObject 1) "url" = VObject 1
   /\ field (heap_of (fst (Sample.put Reference.node))) (VObject 1) "method"
      = VString "PUT"
   /\ field (heap_of (fst (Sample.put Reference.node))) (VObject 1) "hostname"
      = VString "example.com"
   /\ field (heap_of (fst (Sample.put Reference.node))) (VObject 1) "body"
      = VString Sample.json_text
   /\ field (heap_of (fst (Sample.put Reference.node))) (VObject 1) "headers" = VObject 3
   /\ field (heap_of (fst (Sample.put Reference.node))) (VObject 3) "Content-Type"
      = VString "application/json"
   /\ field (heap_of (fst (Sample.put Reference.node))) (VObject 3) "Accept"
      = VString "application/json"
   /\ heap_of (fst (Sample.put Reference.node)) !! 0 = Sample.target_heap !! 0
   /\ heap_of (fst (Sample.put Reference.node)) !! 2 = Sample.target_heap !! 2)
  /\ ((field Sample.number_target_heap (VObject 0) "url" = VObject 1
       /\ 1 < length Sample.number_target_heap)
      /\ snd (Sample.put_number Reference.node) = Normal (DeferredPromise 0)
      /\ network (fst (Sample.put_number Reference.node))
         = [mkRequest (VObject 1) VUndefined]
      /\ has_field (heap_of (fst (Sample.put_number Reference.node))) (VObject 1) "body"
         = false
      /\ field (heap_of (fst (Sample.put_number Reference.node))) (VObject 1) "url"
         = VObject 1
      /\ field (heap_of (fst (Sample.put_number Reference.node))) (VObject 1) "method"
         = VString "PUT"
      /\ field (heap_of (fst (Sample.put_number Reference.node))) (VObject 1) "path"
         = VString "/items"
      /\ heap_of (fst (Sample.put_number Reference.node)) !! 0
         = Sample.number_target_heap !! 0).
Proof.
  split.
  - assert (H1 : field Sample.target_heap (VObject 0) "url" = VObject 1) by reflexivity.
    assert (H2 : 1 < length Sample.target_heap) by (simpl; lia).
    destruct (parsed_target_is_mutated_in_place Reference.node 0 1
                (caller Sample.target_heap) H1 H2)
      as (Hnormal & Hurl & Hkeys & Hobjs & _ & _ & _ & Hjson & _).
    assert (Hr : snd (Sample.put Reference.node) = Normal (DeferredPromise 0))
      by (vm_compute; reflexivity).
    destruct (Hnormal _ Hr) as [_ Hnet].
    destruct (Hjson eq_refl Sample.json_text eq_refl) as (Hbody & Hheaders & Hwritten).
    destruct (Hwritten (or_intror (Nat.lt_succ_diag_r 3))) as [Hct Hacc].
    unfold Sample.put.
    split; [done|]. split; [done|].
    split; [by rewrite Hnet, Hbody|].
    split; [done|].
    split; [by rewrite Hkeys|].
    split; [by rewrite Hkeys|].
    split; [done|]. split; [done|].
    rewrite Hheaders in Hct, Hacc.
    split; [done|]. split; [done|].
    split; apply Hobjs; try (simpl; lia); intros _; done.
  - assert (H1 : field Sample.number_target_heap (VObject 0) "url" = VObject 1)
      by reflexivity.
    assert (H2 : 1 < length Sample.number_target_heap) by (simpl; lia).
    destruct (parsed_target_is_mutated_in_place Reference.node 0 1
                (caller Sample.number_target_heap) H1 H2)
      as (Hnormal & Hurl & Hkeys & Hobjs & _ & Hdel & Hrest & _ & _).
    assert (Hr : snd (Sample.put_number Reference.node) = Normal (DeferredPromise 0))
      by (vm_compute; reflexivity).
    destruct (Hnormal _ Hr) as [_ Hnet].
    assert (Hns : typeof (extended Sample.number_target_heap 0 1 "body") <> "string")
      by (vm_compute; discriminate).
    assert (Hno : typeof (extended Sample.number_target_heap 0 1 "body") <> "object")
      by (vm_compute; discriminate).
    pose proof (Hdel Hns Hno) as Hgone.
    unfold Sample.put_number.
    split; [done|]. split; [done|].
    split.
    { rewrite Hnet. cbn [network caller app]. by rewrite (field_absent _ _ _ Hgone). }
    split; [done|]. split; [done|].
    split; [by rewrite Hrest|].
    split; [by rewrite Hrest|].
    apply Hobjs; try (simpl; lia). intros Ho. by destruct Hno.
Defined.

(** ** Where the code departs from the specification *)

(** C5 (the failing input): a [null] body has [typeof] ['object'], so it is
    not dropped: it is sent as the JSON text [null] with the JSON headers, and
    the [body] property stays on the target. *)
Lemma null_body_is_sent_as_json :
  field Sample.null_body_heap (VObject 0) "body" = VNull
  /\ (exists w2,
        pRequest Reference.node (VObject 0) (caller Sample.null_body_heap)
        = (w2, Normal (DeferredPromise 0))
        /\ network w2 = [mkRequest (VObject 1) (VString "null")]
        /\ has_field (heap_of w2) (VObject 1) "body" = true
        /\ request_header (heap_of w2) (mkRequest (VObject 1) (VString "null"))
             "Content-Type" = VString "application/json")
  /\ ~ (exists w2,
          pRequest Reference.node (VObject 0) (caller Sample.null_body_heap)
          = (w2, Normal (DeferredPromise 0))
          /\ has_field (heap_of w2) (VObject 1) "body" = false
          /\ network w2 = [mkRequest (VObject 1) VUndefined]).
Proof.
  split; [reflexivity|]. split.
  - eexists. split; [vm_compute; reflexivity|]. by vm_compute.
  - intros (w2 & Hp & Hb & Hn). vm_compute in Hp.
    injection Hp as <-. vm_compute in Hn. discriminate.
Qed.


(** C10 (counterexample): a [url] that is neither a string nor an object
    need not make [pRequest] throw.  With Node's sloppy-mode [util._extend]
    the number 42 becomes the target, and in either mode a function does;
    in both cases the deferred promise is returned and a request is made. *)
Lemma non_object_url_returns_a_promise :
  (typeof (field Sample.number_url_heap (VObject 0) "url") <> "string"
   /\ typeof (field Sample.number_url_heap (VObject 0) "url") <> "object"
   /\ pRequest Reference.node (VObject 0) (caller Sample.number_url_heap)
      = (mkWorld Sample.number_url_heap [Pending] [mkRequest (VNumber 42) VUndefined],
         Normal (DeferredPromise 0)))
  /\ (typeof (field Sample.function_url_heap (VObject 0) "url") <> "string"
      /\ typeof (field Sample.function_url_heap (VObject 0) "url") <> "object"
      /\ pRequest Reference.strict_node (VObject 0) (caller Sample.function_url_heap)
         = (mkWorld [plain [("url", VFunction 1)]; plain [("url", VFunction 1)]]
                    [Pending] [mkRequest (VFunction 1) VUndefined],
            Normal (DeferredPromise 0)))
  /\ ~ (exists w' e,
          pRequest Reference.node (VObject 0) (caller Sample.number_url_heap)
          = (w', Throw e))
  /\ ~ (exists w' e,
          pRequest Reference.strict_node (VObject 0) (caller Sample.function_url_heap)
          = (w', Throw e)).
Proof.
  split; [|split; [|split]].
  - split; [vm_compute; discriminate|]. split; [vm_compute; discriminate|]. by vm_compute.
  - split; [vm_compute; discriminate|]. split; [vm_compute; discriminate|]. by vm_compute.
  - intros (w' & e & H). vm_compute in H. discriminate.
  - intros (w' & e & H). vm_compute in H. discriminate.
Qed.

(** ** More about the request *)

Lemma keys_of_app (h h' : list object) o : o < length h -> keys_of (h ++ h') o = keys_of h o.
Proof. intros Ho. unfold keys_of. by rewrite lookup_app_l. Qed.

Section RequestMore.

Variable node : runtime.

(** X8: Whatever the input, a call makes at most one request: exactly one when
    it returns [deferred.promise], which is then pending, and none when it
    returns the rejected promise or throws. *)
Theorem one_request_per_call options w :
  match pRequest node options w with
  | (w', Normal (DeferredPromise d)) =>
      deferreds w' !! d = Some Pending /\ exists rq, network w' = network w ++ [rq]
  | (w', Normal (RejectedPromise reason)) =>
      reason = VString "Missing URL" /\ network w' = network w
  | (w', Throw _) => network w' = network w
  end.
Proof.
  rewrite pRequest_unfold.
  destruct (resolve_target node options (with_deferred Pending w))
    as [w1 [[ro|]|e]] eqn:Ht;
    destruct (resolve_target_io _ _ _ _ _ Ht) as [Hd Hn]; try done.
  destruct (prepare_body node ro w1) as [w2 [[]|e]] eqn:Hb;
    destruct (prepare_body_io _ _ _ _ _ Hb) as [Hd2 Hn2]; [|congruence].
  destruct (prepare_body_needs_target _ _ _ _ Hb) as [H1 H2].
  destruct (http_request_refusal node (heap_of w2) ro) as [[name msg]|] eqn:Hr.
  - rewrite (send_refused _ _ name msg) by done. cbn [network with_heap]. congruence.
  - rewrite send_eq by done. cbn [deferreds network].
    split; [rewrite Hd2, Hd; by apply list_lookup_middle|].
    rewrite Hn2, Hn. eauto.
Qed.

(** X3: A string body is sent as it is: when [http.request] takes the
    target, the payload is that string, and nothing on the heap changes
    after the target is resolved, so no header is added. *)
Theorem string_body_is_sent_as_is options w w1 requestOptions s :
  resolve_target node options (with_deferred Pending w)
    = (w1, Normal (Some requestOptions)) ->
  field (heap_of w1) requestOptions "body" = VString s ->
  http_request_refusal node (heap_of w1) requestOptions = None ->
  pRequest node options w
  = (mkWorld (heap_of w1) (deferreds w ++ [Pending])
             (network w ++ [mkRequest requestOptions (VString s)]),
     Normal (DeferredPromise (length (deferreds w)))).
Proof.
  intros Ht Hbody Hacc.
  destruct (resolve_target_io _ _ _ _ _ Ht) as [Hd Hn].
  assert (Hlive : live (heap_of w1) requestOptions).
  { apply (field_live _ _ "body"). by rewrite Hbody. }
  destruct (live_ref _ _ Hlive) as (t & Hro & _).
  assert (H1 : requestOptions <> VUndefined) by (destruct Hro; congruence).
  assert (H2 : requestOptions <> VNull) by (destruct Hro; congruence).
  assert (Hprep : prepare_body node requestOptions w1 = (w1, Normal tt)).
  { unfold prepare_body, bind. rewrite get_prop_eq by done. by rewrite Hbody. }
  rewrite (pRequest_from_target node options w w1 w1 requestOptions Ht Hprep H1 H2 Hacc).
  by rewrite Hbody, Hd, Hn.
Qed.

(** X4: A body that [JSON.stringify] refuses (a circular structure) makes the
    call throw before anything reaches the transport. *)
Theorem unserializable_body_throws options w w1 requestOptions :
  resolve_target node options (with_deferred Pending w)
    = (w1, Normal (Some requestOptions)) ->
  typeof (field (heap_of w1) requestOptions "body") = "object" ->
  JSON_stringify_text node (heap_of w1) (field (heap_of w1) requestOptions "body")
    = None ->
  exists w' e,
    pRequest node options w = (w', Throw e) /\ network w' = network w.
Proof.
  intros Ht Hty Hnone.
  destruct (resolve_target_io _ _ _ _ _ Ht) as [Hd Hn].
  assert (Hlive : live (heap_of w1) requestOptions).
  { apply (field_live _ _ "body"). intros Hu. by rewrite Hu in Hty. }
  destruct (live_ref _ _ Hlive) as (t & Hro & _).
  rewrite pRequest_unfold, Ht. unfold prepare_body, bind.
  rewrite get_prop_eq by (destruct Hro; congruence).
  apply String.eqb_eq in Hty. rewrite Hty.
  unfold JSON_stringify. rewrite Hnone.
  do 2 eexists. split; [reflexivity|]. exact Hn.
Qed.

(** X5: Headers that are a truthy primitive are kept as they are: the two
    assignments on them are dropped (pkit.js is sloppy-mode code), so, where
    [http.request] takes such headers, the JSON body goes out without
    [Content-Type] and [Accept]. *)
Theorem primitive_headers_get_no_json_headers options w w1 requestOptions b s :
  let hs := field (heap_of w1) requestOptions "headers" in
  resolve_target node options (with_deferred Pending w)
    = (w1, Normal (Some requestOptions)) ->
  field (heap_of w1) requestOptions "body" = VObject b ->
  JSON_stringify_text node (heap_of w1) (VObject b) = Some s ->
  truthy hs = true ->
  typeof hs = "string" \/ typeof hs = "number" \/ typeof hs = "boolean" ->
  accepted node requestOptions w1 ->
  exists w2,
    pRequest node options w = (w2, Normal (DeferredPromise (length (deferreds w))))
    /\ network w2 = network w ++ [mkRequest requestOptions (VString s)]
    /\ field (heap_of w2) requestOptions "headers" = hs
    /\ request_header (heap_of w2) (mkRequest requestOptions (VString s)) "Content-Type"
       = VUndefined
    /\ request_header (heap_of w2) (mkRequest requestOptions (VString s)) "Accept"
       = VUndefined.
Proof.
  intros hs Ht Hbody Hstr Htr Hprim Hacc.
  destruct (resolve_target_io _ _ _ _ _ Ht) as [Hd Hn].
  assert (Hlive : live (heap_of w1) requestOptions).
  { apply (field_live _ _ "body"). by rewrite Hbody. }
  destruct (live_ref _ _ Hlive) as (t & Hro & Hlt).
  assert (H1 : requestOptions <> VUndefined) by (destruct Hro; congruence).
  assert (H2 : requestOptions <> VNull) by (destruct Hro; congruence).
  set (h2 := alter (obj_store "headers" hs) t
               (alter (obj_store "body" (VString s)) t (heap_of w1))).
  assert (Hset : forall k v w0, set_prop false hs k v w0 = (w0, Normal tt)).
  { intros k v w0. destruct hs; try done; destruct Hprim as [?|[?|?]]; done. }
  assert (Hh : field h2 requestOptions "headers" = hs).
  { subst h2. by rewrite (field_store_ref _ _ t) by (done || by rewrite length_alter). }
  assert (Hprep : prepare_body node requestOptions w1 = (with_heap h2 w1, Normal tt)).
  { unfold prepare_body, bind. rewrite get_prop_eq by done. rewrite Hbody.
    change (String.eqb (typeof (VObject b)) "object") with true. cbv iota beta.
    unfold JSON_stringify. rewrite Hstr.
    rewrite (set_prop_ref _ _ t) by done.
    rewrite get_prop_eq by done. cbn [heap_of with_heap].
    rewrite field_store_key_ne by done. fold hs. rewrite Htr. unfold ret.
    rewrite (set_prop_ref _ _ t) by done. cbn [heap_of with_heap].
    rewrite get_prop_eq by done. cbn [heap_of with_heap]. fold h2. rewrite Hh.
    rewrite Hset. rewrite get_prop_eq by done. cbn [heap_of with_heap].
    rewrite Hh. by rewrite Hset. }
  unfold accepted in Hacc. rewrite Hprep in Hacc. cbn [fst] in Hacc.
  eexists. split.
  { apply (pRequest_from_target node options w w1 _ requestOptions Ht Hprep H1 H2 Hacc). }
  cbn [heap_of network with_heap]. unfold request_header. cbn [req_options].
  rewrite Hh, Hn.
  assert (Hb : field h2 requestOptions "body" = VString s).
  { subst h2. rewrite field_store_key_ne by done. by rewrite (field_store_ref _ _ t). }
  rewrite Hb. split; [done|]. split; [done|].
  split; destruct hs; try done; destruct Hprim as [?|[?|?]]; done.
Qed.

(** Lines 52-54 when [options.url] is a string. *)
Lemma resolve_target_url_string o u w :
  field (heap_of w) (VObject o) "url" = VString u ->
  resolve_target node (VObject o) w
  = match extend_loop node (VObject (length (heap_of w))) (VObject o)
            (rev (keys_of (heap_of w) o))
            (with_heap (heap_of w ++ [url_object (url_parse_fields node u)]) w) with
    | (w', Normal _) => (w', Normal (Some (VObject (length (heap_of w)))))
    | (w', Throw e) => (w', Throw e)
    end.
Proof.
  intros Hurl.
  assert (Ho : o < length (heap_of w)).
  { apply (field_live _ (VObject o) "url"). by rewrite Hurl. }
  unfold resolve_target, bind.
  change (String.eqb (typeof (VObject o)) "object") with true. cbv beta iota.
  rewrite get_prop_object, Hurl.
  change (String.eqb (typeof (VString u)) "string") with true. cbv beta iota.
  cbn [url_parse]. unfold alloc at 1.
  unfold util_extend, bind.
  change (negb (truthy (VObject o)) || negb (String.eqb (typeof (VObject o)) "object"))
    with false. cbv beta iota.
  rewrite own_keys_object. cbn [heap_of with_heap]. rewrite keys_of_app by done.
  by destruct (extend_loop node _ _ _ _) as [w' [[]|e]].
Qed.

Lemma string_url_target_is_a_fresh_overlay_aux (o : loc) (u : string) (w : world) :
  let h := heap_of w in
  let target := VObject (length h) in
  field h (VObject o) "url" = VString u ->
  exists h1,
    resolve_target node (VObject o) w = (with_heap h1 w, Normal (Some target))
    /\ length h1 = S (length h)
    /\ (forall l, l < length h -> h1 !! l = h !! l)
    /\ (forall k, In k (keys_of h o) -> field h1 target k = field h (VObject o) k)
    /\ (forall k, ~ In k (keys_of h o) ->
                  field h1 target k
                  = default VUndefined
                      (lookup_prop k (props (url_object (url_parse_fields node u))))).
Proof.
  intros h target Hurl.
  assert (Ho : o < length h).
  { apply (field_live _ (VObject o) "url"). by rewrite Hurl. }
  rewrite resolve_target_url_string with (u := u) by done. fold h.
  set (ob := url_object (url_parse_fields node u)).
  destruct (extend_loop_ref node target (length h) o (rev (keys_of h o))
              (with_heap (h ++ [ob]) w))
    as (h1 & Hrun & Hlen & Hother & Hin & Hout).
  { by left. }
  { cbn [heap_of with_heap]. rewrite length_app. simpl. lia. }
  cbn [heap_of with_heap] in *. subst ob target h.
  rewrite Hrun, with_heap_with_heap. exists h1.
  split; [done|].
  split; [rewrite Hlen, length_app; simpl; lia|].
  split; [|split].
  - intros l Hl. rewrite Hother by lia. by rewrite lookup_app_l.
  - intros k Hk. rewrite Hin by (by apply in_rev in Hk).
    by apply field_app.
  - intros k Hk. rewrite Hout.
    + by rewrite field_alloc.
    + intros Hr. apply Hk. by apply in_rev.
Qed.


(** X7: The headers object is shared, not copied: with a string [url] the target
    is new, yet, when [http.request] takes it, [Content-Type] and [Accept]
    have been written into the headers object that the caller passed. *)
Theorem caller_headers_are_written_to (o hl b : loc) (u s : string) (w w1 : world) :
  let h := heap_of w in
  field h (VObject o) "url" = VString u ->
  field h (VObject o) "headers" = VObject hl -> hl < length h ->
  field h (VObject o) "body" = VObject b ->
  resolve_target node (VObject o) (with_deferred Pending w)
    = (w1, Normal (Some (VObject (length h)))) ->
  JSON_stringify_text node (heap_of w1) (VObject b) = Some s ->
  accepted node (VObject (length h)) w1 ->
  exists w2,
    pRequest node (VObject o) w = (w2, Normal (DeferredPromise (length (deferreds w))))
    /\ field (heap_of w2) (VObject (length h)) "headers" = VObject hl
    /\ field (heap_of w2) (VObject hl) "Content-Type" = VString "application/json"
    /\ field (heap_of w2) (VObject hl) "Accept" = VString "application/json".
Proof.
  intros h Hurl Hhs Hhl Hbody Ht Hstr Hacc.
  destruct (string_url_target_is_a_fresh_overlay_aux o u (with_deferred Pending w) Hurl)
    as (h1 & Hrun & Hlen & Hold & Hin & _).
  cbn [heap_of with_deferred] in *. fold h in Hrun, Hlen, Hold, Hin.
  rewrite Hrun in Ht. injection Ht as <-. cbn [heap_of with_heap] in *.
  assert (Hk : forall k, field h (VObject o) k <> VUndefined -> In k (keys_of h o)).
  { intros k Hne. destruct (in_dec string_dec k (keys_of h o)) as [Hi|Hni]; [done|].
    by apply field_not_key in Hni. }
  assert (Hb1 : field h1 (VObject (length h)) "body" = VObject b).
  { rewrite Hin; [done|]. apply Hk. by rewrite Hbody. }
  assert (Hh1 : field h1 (VObject (length h)) "headers" = VObject hl).
  { rewrite Hin; [done|]. apply Hk. by rewrite Hhs. }
  destruct (structured_body_request node (VObject o) w _ (VObject (length h))
              (length h) s Hrun)
    as (w2 & rq & Hp & _ & Hopt & _ & _ & Hh & Hhead & _);
    [by left|cbn [heap_of with_heap]; lia
    |cbn [heap_of with_heap]; by rewrite Hb1
    |cbn [heap_of with_heap]; by rewrite Hb1|done|].
  cbn [heap_of with_heap] in *. rewrite Hh1 in Hh, Hhead. cbn [truthy] in Hh.
  destruct Hhead as [Hct Hac]; [right; simpl; lia|].
  unfold request_header in Hct, Hac. rewrite Hopt, Hh in Hct, Hac.
  exists w2. done.
Qed.

End RequestMore.

(** ** More about the exchange *)

Section ExchangeMore.

Variable node : runtime.
Variable d : nat.

(** The ['end'] handler on a response whose [content-type] does not start
    with [application/json]. *)
Lemma on_end_plain w r hl ct buf :
  let H := heap_of w in
  r < length H ->
  field H (VObject r) "headers" = VObject hl ->
  field H (VObject hl) "content-type" = VString ct ->
  substring 0 16 ct <> "application/json" ->
  on_end node d (VObject r) buf w
  = (mkWorld
       (alter (obj_store "body" (VString buf)) r H
          ++ [plain [("statusCode", field H (VObject r) "statusCode");
                     ("headers", VObject hl);
                     ("body", VString buf)]])
       (alter (resolve (VObject (length H))) d (deferreds w))
       (network w),
     Normal tt).
Proof.
  intros H Hr Hhs Hct Hpre.
  unfold on_end, bind.
  rewrite (set_prop_ref _ _ r) by (by left).
  rewrite get_prop_object. cbn [heap_of with_heap]. fold H.
  rewrite field_store_key_ne by done. rewrite Hhs.
  rewrite get_prop_object. cbn [heap_of with_heap].
  rewrite field_store_key_ne by done. rewrite Hct.
  cbn [slice_0_16]. unfold ret at 1. cbn [strict_eq_string].
  apply String.eqb_neq in Hpre. rewrite Hpre. unfold ret at 1.
  rewrite !get_prop_object. cbn [heap_of with_heap].
  unfold alloc, deferred_resolve, settle, with_heap.
  cbn [heap_of deferreds network].
  rewrite field_store_eq by done. rewrite !field_store_key_ne by done.
  by rewrite Hhs, length_alter.
Qed.

(** X10: A response whose [content-type] is a string that does not start with
    [application/json] (the comparison is case-sensitive) fulfils the
    promise with the response's [statusCode], its [headers] object and, as
    [body], the accumulated text, unparsed. *)
Theorem non_json_response_resolves_with_raw_text w statusCode headers chunks ct :
  let x := run node d (started w)
             (EvResponse statusCode headers :: map EvData chunks ++ [EvEnd]) in
  let h := heap_of (ex_world x) in
  deferreds w !! d = Some Pending ->
  lookup_prop "content-type" headers = Some (VString ct) ->
  substring 0 16 ct <> "application/json" ->
  exists result hs,
    deferreds (ex_world x) !! d = Some (Fulfilled result)
    /\ ex_uncaught x = []
    /\ field h result "statusCode" = VNumber statusCode
    /\ field h result "headers" = VObject hs
    /\ h !! hs = Some (plain headers)
    /\ field h result "body" = VString (accumulate chunks).
Proof.
  intros x h Hpend Hct Hpre. subst h x.
  rewrite app_comm_cons, run_app, run_response_data.
  set (h0 := heap_of w).
  destruct (response_fields h0 statusCode headers "content-type")
    as (Hr & Hsc & Hhs & Hc & Hhl).
  rewrite Hct in Hc. simpl in Hc.
  set (h1 := (h0 ++ [plain headers])
               ++ [plain [("statusCode", VNumber statusCode);
                          ("headers", VObject (length h0))]]) in *.
  pose proof (on_end_plain (with_heap h1 w) (S (length h0)) (length h0) ct
                (accumulate chunks) Hr Hhs Hc Hpre) as Hend.
  cbn [heap_of with_heap deferreds network] in Hend. rewrite Hsc in Hend.
  unfold run. cbn [fold_left]. unfold step. cbn [ex_response].
  unfold deliver. cbn [ex_world ex_response ex_uncaught]. rewrite Hend.
  cbn [ex_world ex_uncaught heap_of deferreds with_heap].
  rewrite list_lookup_alter_eq, Hpend. cbn [resolve fmap option_fmap option_map].
  exists (VObject (length h1)), (length h0).
  rewrite <- (length_alter (obj_store "body" (VString (accumulate chunks)))
                h1 (S (length h0))).
  rewrite !field_alloc. cbn [props plain lookup_prop].
  repeat split; try done.
  apply lookup_app_l_Some. rewrite list_lookup_alter_ne by lia. done.
Qed.

(** X11: Whenever the [content-type] of the response is a string, ['end'] settles
    the promise and no exception leaves the handler: the text is delivered
    raw, delivered parsed, or the parse error is delivered. *)
Theorem string_content_type_always_settles w statusCode headers chunks ct :
  let x := run node d (started w)
             (EvResponse statusCode headers :: map EvData chunks ++ [EvEnd]) in
  deferreds w !! d = Some Pending ->
  lookup_prop "content-type" headers = Some (VString ct) ->
  deferreds (ex_world x) !! d <> Some Pending /\ ex_uncaught x = [].
Proof.
  intros x Hpend Hct. subst x.
  rewrite app_comm_cons, run_app, run_response_data.
  set (h0 := heap_of w).
  destruct (response_fields h0 statusCode headers "content-type")
    as (Hr & Hsc & Hhs & Hc & Hhl).
  rewrite Hct in Hc. simpl in Hc.
  set (h1 := (h0 ++ [plain headers])
               ++ [plain [("statusCode", VNumber statusCode);
                          ("headers", VObject (length h0))]]) in *.
  unfold run. cbn [fold_left]. unfold step. cbn [ex_response].
  unfold deliver. cbn [ex_world ex_response ex_uncaught].
  destruct (String.eqb_spec (substring 0 16 ct) "application/json") as [Hpre|Hpre].
  - destruct (JSON_parse_text node (accumulate chunks)) as [j|msg] eqn:Hparse.
    + destruct (on_end_parsed node d (with_heap h1 w) (S (length h0)) (length h0) ct
                  (accumulate chunks) j Hr Hhs Hc Hpre Hparse)
        as (h' & v & Hend & _).
      rewrite Hend. cbn [ex_world ex_uncaught deferreds with_heap]. split; [|done].
      by rewrite list_lookup_alter_eq, Hpend.
    + rewrite (on_end_syntax_error node d (with_heap h1 w) (S (length h0)) (length h0)
                 ct (accumulate chunks) msg Hr Hhs Hc Hpre Hparse).
      cbn [ex_world ex_uncaught deferreds with_heap]. split; [|done].
      by rewrite !list_lookup_alter_eq, Hpend.
  - rewrite (on_end_plain (with_heap h1 w) (S (length h0)) (length h0) ct
               (accumulate chunks) Hr Hhs Hc Hpre).
    cbn [ex_world ex_uncaught deferreds with_heap]. split; [|done].
    by rewrite list_lookup_alter_eq, Hpend.
Qed.

(** X12: An ['error'] of the request rejects a pending promise with that very
    error, and whatever is emitted afterwards leaves it rejected with it. *)
Theorem transport_error_rejects x err rest :
  deferreds (ex_world x) !! d = Some Pending ->
  deferreds (ex_world (run node d x (EvError err :: rest))) !! d = Some (Rejected err).
Proof.
  intros Hpend. rewrite run_cons.
  apply run_keeps_settled; [|done].
  cbn [step]. unfold deliver, on_error, deferred_reject.
  cbn [ex_world deferreds settle]. by rewrite list_lookup_alter_eq, Hpend.
Qed.

(** X13: A settled promise is final: no sequence of events changes it.  In
    particular a ['close'] after a completed ['end'] does not turn the
    fulfilment into a rejection. *)
Theorem settled_promise_is_final x evs p :
  deferreds (ex_world x) !! d = Some p -> p <> Pending ->
  deferreds (ex_world (run node d x evs)) !! d = deferreds (ex_world x) !! d.
Proof. intros Hx Hp. rewrite Hx. by apply run_keeps_settled. Qed.

(** X14: The text handed to ['end'] is the concatenation of the chunks in the
    order of their arrival, and buffering settles nothing. *)
Theorem chunks_are_buffered_in_order w statusCode headers chunks :
  let x := run node d (started w) (EvResponse statusCode headers :: map EvData chunks) in
  ex_response x = Some (VObject (S (length (heap_of w))), String.concat "" chunks)
  /\ deferreds (ex_world x) !! d = deferreds w !! d
  /\ ex_uncaught x = [].
Proof.
  intros x. subst x. rewrite run_response_data. cbn [ex_response ex_world ex_uncaught].
  by rewrite accumulate_concat.
Qed.

(** *** The handlers make no request *)

Lemma no_io_heap_only {A} (m : M A) : heap_only m -> no_io m.
Proof. intros Hm w. apply Hm. Qed.

Lemma no_io_bind {A B} (m : M A) (k : A -> M B) :
  no_io m -> (forall a, no_io (k a)) -> no_io (bind m k).
Proof.
  intros Hm Hk w. unfold bind. specialize (Hm w).
  destruct (m w) as [w' [a|e]]; simpl in *; [|done].
  by rewrite Hk.
Qed.

Lemma no_io_try_catch {A} (m : M A) (handler : value -> M A) :
  no_io m -> (forall e, no_io (handler e)) -> no_io (try_catch m handler).
Proof.
  intros Hm Hk w. unfold try_catch. specialize (Hm w).
  destruct (m w) as [w' [a|e]]; simpl in *; [done|].
  by rewrite Hk.
Qed.

Lemma no_io_resolve v : no_io (deferred_resolve d v).
Proof. done. Qed.

Lemma no_io_reject e : no_io (deferred_reject d e).
Proof. done. Qed.

Lemma no_io_on_end response buf : no_io (on_end node d response buf).
Proof.
  unfold on_end.
  repeat first
    [ apply no_io_resolve
    | apply no_io_reject
    | apply no_io_bind; [|intros ?]
    | apply no_io_try_catch; [|intros ?]
    | match goal with |- no_io (if ?b then _ else _) => destruct b end
    | apply no_io_heap_only;
      first [ apply heap_only_JSON_parse | apply heap_only_slice
            | solve [auto with heap_only] ] ].
Qed.

Lemma deliver_no_io (m : M unit) x :
  no_io m -> network (ex_world (deliver m x)) = network (ex_world x).
Proof.
  intros Hm. unfold deliver. specialize (Hm (ex_world x)).
  by destruct (m (ex_world x)) as [w' [a|e]].
Qed.

Lemma step_no_io x ev : network (ex_world (step node d x ev)) = network (ex_world x).
Proof.
  destruct ev as [err|sc hs|chunk| |]; [|by rewrite step_response|..]; cbn [step].
  - apply deliver_no_io, no_io_reject.
  - by destruct (ex_response x) as [[r buf]|].
  - destruct (ex_response x) as [[r buf]|]; [|done].
    apply deliver_no_io, no_io_on_end.
  - destruct (ex_response x) as [[r buf]|]; [|done].
    apply deliver_no_io. unfold on_close. apply no_io_bind; [|intros ?].
    + apply no_io_heap_only. auto with heap_only.
    + apply no_io_reject.
Qed.

(** X15: No handler makes a request: whatever happens on the connection, failure
    included, nothing is sent again. *)
Theorem handlers_make_no_request x evs :
  network (ex_world (run node d x evs)) = network (ex_world x).
Proof.
  revert x. induction evs as [|ev evs IH]; intros x; [done|].
  by rewrite run_cons, IH, step_no_io.
Qed.

(** X16: Only ['end'] fulfils: as long as no ['end'] is emitted the promise is
    not fulfilled, however much of the body has arrived. *)
Theorem no_end_no_fulfilment x evs :
  Forall (fun ev => ev <> EvEnd) evs ->
  (forall v, deferreds (ex_world x) !! d <> Some (Fulfilled v)) ->
  forall v, deferreds (ex_world (run node d x evs)) !! d <> Some (Fulfilled v).
Proof.
  intros Hevs. revert x. induction Hevs as [|ev evs Hev _ IH]; intros x Hx; [done|].
  rewrite run_cons. apply IH. intros v.
  destruct ev as [err|sc hs|chunk| |]; [|by rewrite step_response|..]; cbn [step].
  - unfold deliver, on_error, deferred_reject. cbn [ex_world deferreds settle].
    rewrite list_lookup_alter_eq.
    specialize (Hx v). by destruct (deferreds (ex_world x) !! d) as [[]|].
  - by destruct (ex_response x) as [[r buf]|].
  - done.
  - destruct (ex_response x) as [[r buf]|]; [|done].
    unfold deliver, on_close, bind, alloc, deferred_reject.
    cbn [ex_world deferreds settle with_heap].
    rewrite list_lookup_alter_eq.
    specialize (Hx v). by destruct (deferreds (ex_world x) !! d) as [[]|].
Qed.

(** *** The events of one call settle the promise of that call only *)

Lemma settles_only_heap_only {A} (m : M A) : heap_only m -> settles_only d m.
Proof.
  intros Hm w. exists id. destruct (Hm w) as [-> _]. by rewrite list_alter_id.
Qed.

Lemma settles_only_bind {A B} (m : M A) (k : A -> M B) :
  settles_only d m -> (forall a, settles_only d (k a)) -> settles_only d (bind m k).
Proof.
  intros Hm Hk w. unfold bind. destruct (Hm w) as [f Hf].
  destruct (m w) as [w' [a|e]]; simpl in *; [|eauto].
  destruct (Hk a w') as [g Hg]. exists (g ∘ f).
  by rewrite Hg, Hf, list_alter_alter_eq.
Qed.

Lemma settles_only_try_catch {A} (m : M A) (handler : value -> M A) :
  settles_only d m -> (forall e, settles_only d (handler e)) ->
  settles_only d (try_catch m handler).
Proof.
  intros Hm Hk w. unfold try_catch. destruct (Hm w) as [f Hf].
  destruct (m w) as [w' [a|e]]; simpl in *; [eauto|].
  destruct (Hk e w') as [g Hg]. exists (g ∘ f).
  by rewrite Hg, Hf, list_alter_alter_eq.
Qed.

Lemma settles_only_resolve v : settles_only d (deferred_resolve d v).
Proof. intros w. by exists (resolve v). Qed.

Lemma settles_only_reject e : settles_only d (deferred_reject d e).
Proof. intros w. by exists (reject e). Qed.

Lemma settles_only_on_end response buf : settles_only d (on_end node d response buf).
Proof.
  unfold on_end.
  repeat first
    [ apply settles_only_resolve
    | apply settles_only_reject
    | apply settles_only_bind; [|intros ?]
    | apply settles_only_try_catch; [|intros ?]
    | match goal with |- settles_only _ (if ?b then _ else _) => destruct b end
    | apply settles_only_heap_only;
      first [ apply heap_only_JSON_parse | apply heap_only_slice
            | solve [auto with heap_only] ] ].
Qed.

Lemma deliver_settles_only (m : M unit) x :
  settles_only d m ->
  exists f, deferreds (ex_world (deliver m x)) = alter f d (deferreds (ex_world x)).
Proof.
  intros Hm. unfold deliver. destruct (Hm (ex_world x)) as [f Hf].
  exists f. by destruct (m (ex_world x)) as [w' [a|e]].
Qed.

Lemma unchanged_settles_only (l : list promise) : exists f, l = alter f d l.
Proof. exists id. by rewrite list_alter_id. Qed.

Lemma step_settles_only x ev :
  exists f, deferreds (ex_world (step node d x ev)) = alter f d (deferreds (ex_world x)).
Proof.
  destruct ev as [err|sc hs|chunk| |];
    [|rewrite step_response; apply unchanged_settles_only|..]; cbn [step].
  - apply deliver_settles_only, settles_only_reject.
  - destruct (ex_response x) as [[r buf]|]; apply unchanged_settles_only.
  - destruct (ex_response x) as [[r buf]|]; [|apply unchanged_settles_only].
    apply deliver_settles_only, settles_only_on_end.
  - destruct (ex_response x) as [[r buf]|]; [|apply unchanged_settles_only].
    apply deliver_settles_only. unfold on_close. apply settles_only_bind; [|intros ?].
    + apply settles_only_heap_only. auto with heap_only.
    + apply settles_only_reject.
Qed.

Lemma run_settles_only evs x :
  exists f, deferreds (ex_world (run node d x evs)) = alter f d (deferreds (ex_world x)).
Proof.
  revert x. induction evs as [|ev evs IH]; intros x; [apply unchanged_settles_only|].
  rewrite run_cons. destruct (IH (step node d x ev)) as [g Hg].
  destruct (step_settles_only x ev) as [f Hf].
  exists (g ∘ f). by rewrite Hg, Hf, list_alter_alter_eq.
Qed.

(** X18: The events of one call leave the promises of all other calls as
    they are, pending ones included, and make no new deferred. *)
Theorem exchanges_do_not_interfere x evs d' :
  d' <> d ->
  deferreds (ex_world (run node d x evs)) !! d' = deferreds (ex_world x) !! d'
  /\ length (deferreds (ex_world (run node d x evs)))
     = length (deferreds (ex_world x)).
Proof.
  intros Hne. destruct (run_settles_only evs x) as [f ->].
  by rewrite list_lookup_alter_ne, length_alter.
Qed.

End ExchangeMore.

(** ** One call after another *)

Section Calls.

Variable node : runtime.

(** Every call makes one deferred, and the promise it returns is that of
    this deferred. *)
Lemma pRequest_deferreds options w :
  deferreds (fst (pRequest node options w)) = deferreds w ++ [Pending]
  /\ forall d, snd (pRequest node options w) = Normal (DeferredPromise d) ->
               d = length (deferreds w).
Proof.
  rewrite pRequest_unfold.
  destruct (resolve_target node options (with_deferred Pending w))
    as [w1 [[ro|]|e]] eqn:Ht;
    destruct (resolve_target_io _ _ _ _ _ Ht) as [Hd Hn]; try done.
  destruct (prepare_body node ro w1) as [w2 [[]|e]] eqn:Hb;
    destruct (prepare_body_io _ _ _ _ _ Hb) as [Hd2 Hn2];
    [|split; [cbn [fst]; congruence|done]].
  destruct (prepare_body_needs_target _ _ _ _ Hb) as [H1 H2].
  destruct (http_request_refusal node (heap_of w2) ro) as [[name msg]|] eqn:Hr.
  - rewrite (send_refused _ _ name msg) by done. cbn [fst snd deferreds with_heap].
    split; [congruence|done].
  - rewrite send_eq by done. cbn [fst snd deferreds].
    split; [congruence|]. by intros d [= <-].
Qed.

(** X9: One call after another: the second call gets a deferred of its
    own, pending, and leaves the promise of the first call as the events of
    the first exchange left it, settled or not. *)
Theorem sequential_calls_are_independent options1 options2 evs w w1 w2 d1 d2 :
  let x := run node d1 (started w1) evs in
  pRequest node options1 w = (w1, Normal (DeferredPromise d1)) ->
  pRequest node options2 (ex_world x) = (w2, Normal (DeferredPromise d2)) ->
  d1 < d2
  /\ deferreds w1 !! d1 = Some Pending
  /\ deferreds w2 !! d1 = deferreds (ex_world x) !! d1
  /\ deferreds w2 !! d2 = Some Pending.
Proof.
  intros x H1 H2.
  destruct (pRequest_deferreds options1 w) as [Hd1 Hh1].
  rewrite H1 in Hd1, Hh1. cbn [fst snd] in Hd1, Hh1.
  specialize (Hh1 d1 eq_refl).
  destruct (pRequest_deferreds options2 (ex_world x)) as [Hd2 Hh2].
  rewrite H2 in Hd2, Hh2. cbn [fst snd] in Hd2, Hh2.
  specialize (Hh2 d2 eq_refl).
  destruct (run_settles_only node d1 evs (started w1)) as [f Hf].
  fold x in Hf. cbn [started ex_world] in Hf.
  assert (Hlen : length (deferreds (ex_world x)) = S d1).
  { rewrite Hf, length_alter, Hd1, length_app. simpl. lia. }
  split; [lia|].
  split; [rewrite Hd1, Hh1; by apply list_lookup_middle|].
  split; [rewrite Hd2; apply lookup_app_l; lia|].
  rewrite Hd2, Hh2. by apply list_lookup_middle.
Qed.

End Calls.

(** ** The further statements at sample inputs *)

Lemma pRequest_invalid_input_witness :
  (typeof (VNumber 42) <> "object" /\ typeof (VNumber 42) <> "string")
  /\ pRequest Reference.node (VNumber 42) (caller [])
     = (with_deferred Pending (caller []),
        Normal (RejectedPromise (VString "Missing URL"))).
Proof.
  split; [split; discriminate|].
  apply (pRequest_invalid_input Reference.node (VNumber 42) (caller [])); discriminate.
Defined.

Lemma string_body_is_sent_as_is_witness :
  (resolve_target Reference.node (VObject 0)
     (with_deferred Pending (caller Cases.string_body_heap))
   = (Sample.resolved Cases.string_body_heap, Normal (Some (VObject 1)))
   /\ field (heap_of (Sample.resolved Cases.string_body_heap)) (VObject 1) "body"
      = VString "a=1"
   /\ http_request_refusal Reference.node
        (heap_of (Sample.resolved Cases.string_body_heap)) (VObject 1)
      = None)
  /\ pRequest Reference.node (VObject 0) (caller Cases.string_body_heap)
     = (mkWorld (heap_of (Sample.resolved Cases.string_body_heap))
                (deferreds (caller Cases.string_body_heap) ++ [Pending])
                (network (caller Cases.string_body_heap)
                   ++ [mkRequest (VObject 1) (VString "a=1")]),
        Normal (DeferredPromise (length (deferreds (caller Cases.string_body_heap))))).
Proof.
  split; [repeat split; reflexivity|].
  apply (string_body_is_sent_as_is Reference.node (VObject 0)
           (caller Cases.string_body_heap) (Sample.resolved Cases.string_body_heap)
           (VObject 1) "a=1"); reflexivity.
Defined.

Lemma unserializable_body_throws_witness :
  (resolve_target Reference.node (VObject 0)
     (with_deferred Pending (caller Cases.circular_heap))
   = (Sample.resolved Cases.circular_heap, Normal (Some (VObject 2)))
   /\ typeof (field (heap_of (Sample.resolved Cases.circular_heap)) (VObject 2) "body")
      = "object"
   /\ JSON_stringify_text Reference.node (heap_of (Sample.resolved Cases.circular_heap))
        (field (heap_of (Sample.resolved Cases.circular_heap)) (VObject 2) "body")
      = None)
  /\ exists w' e,
       pRequest Reference.node (VObject 0) (caller Cases.circular_heap) = (w', Throw e)
       /\ network w' = network (caller Cases.circular_heap).
Proof.
  split; [repeat split; reflexivity|].
  apply (unserializable_body_throws Reference.node (VObject 0)
           (caller Cases.circular_heap) (Sample.resolved Cases.circular_heap)
           (VObject 2)); reflexivity.
Defined.

Lemma primitive_headers_get_no_json_headers_witness :
  (resolve_target Reference.strict_node (VObject 0)
     (with_deferred Pending (caller Cases.primitive_headers_heap))
   = (Cases.resolved_now Cases.primitive_headers_heap, Normal (Some (VObject 2)))
   /\ field (heap_of (Cases.resolved_now Cases.primitive_headers_heap)) (VObject 2) "body"
      = VObject 1
   /\ JSON_stringify_text Reference.strict_node
        (heap_of (Cases.resolved_now Cases.primitive_headers_heap)) (VObject 1)
      = Some Sample.json_text
   /\ truthy (field (heap_of (Cases.resolved_now Cases.primitive_headers_heap))
                (VObject 2) "headers") = true
   /\ (typeof (field (heap_of (Cases.resolved_now Cases.primitive_headers_heap))
                 (VObject 2) "headers") = "string"
       \/ typeof (field (heap_of (Cases.resolved_now Cases.primitive_headers_heap))
                    (VObject 2) "headers") = "number"
       \/ typeof (field (heap_of (Cases.resolved_now Cases.primitive_headers_heap))
                    (VObject 2) "headers") = "boolean")
   /\ accepted Reference.strict_node (VObject 2)
        (Cases.resolved_now Cases.primitive_headers_heap))
  /\ exists w2,
       pRequest Reference.strict_node (VObject 0) (caller Cases.primitive_headers_heap)
       = (w2, Normal (DeferredPromise 0))
       /\ network w2
          = network (caller Cases.primitive_headers_heap)
              ++ [mkRequest (VObject 2) (VString Sample.json_text)]
       /\ field (heap_of w2) (VObject 2) "headers"
          = field (heap_of (Cases.resolved_now Cases.primitive_headers_heap))
              (VObject 2) "headers"
       /\ request_header (heap_of w2)
            (mkRequest (VObject 2) (VString Sample.json_text)) "Content-Type"
          = VUndefined
       /\ request_header (heap_of w2)
            (mkRequest (VObject 2) (VString Sample.json_text)) "Accept"
          = VUndefined.
Proof.
  assert (Hacc : accepted Reference.strict_node (VObject 2)
                   (Cases.resolved_now Cases.primitive_headers_heap))
    by (vm_compute; reflexivity).
  split; [repeat split; try reflexivity; try assumption; left; reflexivity|].
  apply (primitive_headers_get_no_json_headers Reference.strict_node (VObject 0)
           (caller Cases.primitive_headers_heap)
           (Cases.resolved_now Cases.primitive_headers_heap) (VObject 2) 1
           Sample.json_text); try reflexivity; try assumption.
  left; reflexivity.
Defined.


Lemma caller_headers_are_written_to_witness :
  (field (heap_of (caller Cases.shared_headers_heap)) (VObject 0) "url"
   = VString "http://example.com/items"
   /\ field (heap_of (caller Cases.shared_headers_heap)) (VObject 0) "headers"
      = VObject 2
   /\ 2 < length (heap_of (caller Cases.shared_headers_heap))
   /\ field (heap_of (caller Cases.shared_headers_heap)) (VObject 0) "body" = VObject 1
   /\ resolve_target Reference.node (VObject 0)
        (with_deferred Pending (caller Cases.shared_headers_heap))
      = (Sample.resolved Cases.shared_headers_heap, Normal (Some (VObject 3)))
   /\ JSON_stringify_text Reference.node
        (heap_of (Sample.resolved Cases.shared_headers_heap)) (VObject 1)
      = Some Sample.json_text
   /\ accepted Reference.node (VObject 3) (Sample.resolved Cases.shared_headers_heap))
  /\ exists w2,
       pRequest Reference.node (VObject 0) (caller Cases.shared_headers_heap)
       = (w2, Normal (DeferredPromise 0))
       /\ field (heap_of w2) (VObject 3) "headers" = VObject 2
       /\ field (heap_of w2) (VObject 2) "Content-Type" = VString "application/json"
       /\ field (heap_of w2) (VObject 2) "Accept" = VString "application/json".
Proof.
  assert (Hacc : accepted Reference.node (VObject 3)
                   (Sample.resolved Cases.shared_headers_heap))
    by (vm_compute; reflexivity).
  split; [repeat split; try reflexivity; try assumption; simpl; lia|].
  apply (caller_headers_are_written_to Reference.node 0 2 1
           "http://example.com/items" Sample.json_text
           (caller Cases.shared_headers_heap)
           (Sample.resolved Cases.shared_headers_heap));
    try reflexivity; try assumption.
  simpl; lia.
Defined.

Lemma refused_target_throws_witness :
  (resolve_target Reference.node (VString "https://example.com/items")
     (with_deferred Pending (caller []))
   = (Cases.https_resolved, Normal (Some (VObject 0)))
   /\ prepare_body Reference.node (VObject 0) Cases.https_resolved
      = (Cases.https_resolved, Normal tt)
   /\ http_request_refusal Reference.node (heap_of Cases.https_resolved) (VObject 0)
      = Some ("Error", "Protocol:https: not supported."))
  /\ exists w',
       pRequest Reference.node (VString "https://example.com/items") (caller [])
       = (w', Throw (VObject (length (heap_of Cases.https_resolved))))
       /\ field (heap_of w') (VObject (length (heap_of Cases.https_resolved))) "name"
          = VString "Error"
       /\ field (heap_of w') (VObject (length (heap_of Cases.https_resolved))) "message"
          = VString "Protocol:https: not supported."
       /\ network w' = network (caller []).
Proof.
  split; [repeat split; by vm_compute|].
  apply (refused_target_throws Reference.node (VString "https://example.com/items")
           (caller []) Cases.https_resolved Cases.https_resolved (VObject 0)
           "Error" "Protocol:https: not supported."); by vm_compute.
Defined.

Lemma non_json_response_resolves_with_raw_text_witness :
  (deferreds (called []) !! 0 = Some Pending
   /\ lookup_prop "content-type" Cases.text_headers = Some (VString "text/plain")
   /\ substring 0 16 "text/plain" <> "application/json")
  /\ exists result hs,
       deferreds (ex_world Cases.text_exchange) !! 0 = Some (Fulfilled result)
       /\ ex_uncaught Cases.text_exchange = []
       /\ field (heap_of (ex_world Cases.text_exchange)) result "statusCode" = VNumber 200
       /\ field (heap_of (ex_world Cases.text_exchange)) result "headers" = VObject hs
       /\ heap_of (ex_world Cases.text_exchange) !! hs = Some (plain Cases.text_headers)
       /\ field (heap_of (ex_world Cases.text_exchange)) result "body"
          = VString (accumulate Cases.text_chunks).
Proof.
  split; [repeat split; try reflexivity; discriminate|].
  apply (non_json_response_resolves_with_raw_text Reference.node 0 (called []) 200
           Cases.text_headers Cases.text_chunks "text/plain");
    try reflexivity. discriminate.
Defined.

Lemma string_content_type_always_settles_witness :
  (deferreds (called []) !! 0 = Some Pending
   /\ lookup_prop "content-type" Sample.json_headers
      = Some (VString "application/json; charset=utf-8"))
  /\ (deferreds (ex_world Sample.bad_exchange) !! 0 <> Some Pending
      /\ ex_uncaught Sample.bad_exchange = []).
Proof.
  split; [split; reflexivity|].
  apply (string_content_type_always_settles Reference.node 0 (called []) 200
           Sample.json_headers Sample.bad_chunks "application/json; charset=utf-8");
    reflexivity.
Defined.

Lemma transport_error_rejects_witness :
  deferreds (ex_world (started (called []))) !! 0 = Some Pending
  /\ deferreds (ex_world (run Reference.node 0 (started (called []))
                           (EvError (VString "ECONNREFUSED") :: [EvClose; EvEnd]))) !! 0
     = Some (Rejected (VString "ECONNREFUSED")).
Proof.
  split; [reflexivity|].
  apply (transport_error_rejects Reference.node 0 (started (called []))
           (VString "ECONNREFUSED") [EvClose; EvEnd]).
  reflexivity.
Defined.

Lemma settled_promise_is_final_witness :
  (deferreds (ex_world Cases.text_exchange) !! 0 = Some (Fulfilled (VObject 2))
   /\ Fulfilled (VObject 2) <> Pending)
  /\ deferreds (ex_world (run Reference.node 0 Cases.text_exchange
                           [EvClose; EvError VNull; EvEnd])) !! 0
     = deferreds (ex_world Cases.text_exchange) !! 0.
Proof.
  assert (H : deferreds (ex_world Cases.text_exchange) !! 0
              = Some (Fulfilled (VObject 2)))
    by (vm_compute; reflexivity).
  assert (H' : Fulfilled (VObject 2) <> Pending) by discriminate.
  split; [split; assumption|].
  apply (settled_promise_is_final Reference.node 0 Cases.text_exchange
           [EvClose; EvError VNull; EvEnd] (Fulfilled (VObject 2)) H H').
Defined.

Lemma no_end_no_fulfilment_witness :
  (Forall (fun ev => ev <> EvEnd) Sample.cut_off
   /\ (forall v, deferreds (ex_world (started (called []))) !! 0 <> Some (Fulfilled v)))
  /\ forall v,
       deferreds (ex_world (run Reference.node 0 (started (called [])) Sample.cut_off)) !! 0
       <> Some (Fulfilled v).
Proof.
  assert (H1 : Forall (fun ev => ev <> EvEnd) Sample.cut_off)
    by (repeat constructor; discriminate).
  assert (H2 : forall v, deferreds (ex_world (started (called []))) !! 0
                         <> Some (Fulfilled v))
    by (intros v; discriminate).
  split; [split; assumption|].
  apply (no_end_no_fulfilment Reference.node 0 (started (called [])) Sample.cut_off H1 H2).
Defined.

Lemma exchanges_do_not_interfere_witness :
  0 <> 1
  /\ deferreds (ex_world (run Reference.node 1 (started Cases.second_call)
                           (EvResponse 200 Sample.json_headers
                              :: map EvData Sample.json_chunks ++ [EvEnd]))) !! 0
     = deferreds (ex_world (started Cases.second_call)) !! 0
  /\ length (deferreds (ex_world (run Reference.node 1 (started Cases.second_call)
                                    (EvResponse 200 Sample.json_headers
                                       :: map EvData Sample.json_chunks ++ [EvEnd]))))
     = length (deferreds (ex_world (started Cases.second_call))).
Proof.
  assert (H : 0 <> 1) by discriminate.
  split; [exact H|].
  apply (exchanges_do_not_interfere Reference.node 1 (started Cases.second_call)
           (EvResponse 200 Sample.json_headers
              :: map EvData Sample.json_chunks ++ [EvEnd]) 0 H).
Defined.

Lemma sequential_calls_are_independent_witness :
  (pRequest Reference.node Cases.get_items (caller [])
   = (Cases.first_call, Normal (DeferredPromise 0))
   /\ pRequest Reference.node Cases.get_items (ex_world Cases.boom)
      = (Cases.second_call, Normal (DeferredPromise 1)))
  /\ 0 < 1
  /\ deferreds Cases.first_call !! 0 = Some Pending
  /\ deferreds Cases.second_call !! 0 = deferreds (ex_world Cases.boom) !! 0
  /\ deferreds Cases.second_call !! 1 = Some Pending.
Proof.
  assert (H1 : pRequest Reference.node Cases.get_items (caller [])
               = (Cases.first_call, Normal (DeferredPromise 0)))
    by (vm_compute; reflexivity).
  assert (H2 : pRequest Reference.node Cases.get_items (ex_world Cases.boom)
               = (Cases.second_call, Normal (DeferredPromise 1)))
    by (vm_compute; reflexivity).
  split; [split; assumption|].
  apply (sequential_calls_are_independent Reference.node Cases.get_items
           Cases.get_items [EvError (VString "boom")] (caller [])
           Cases.first_call Cases.second_call 0 1 H1 H2).
Defined.
